(** * freqtrade.optimize: ticker cache loading, trimming and validation

    A shallow embedding of [freqtrade/optimize/__init__.py].

    Python integers are unbounded, so every integer of the source is a [Z].
    Exceptions are values of [exn]; a function that can raise returns a
    [result].  The functions that log, read the clock, touch the data
    directory or call the exchange run in the monad [M] over a [world]. *)

From Stdlib Require Import ZArith String Ascii List Lia DecimalString.
From stdpp Require Import base option list sorting strings gmap.
Import ListNotations.

Local Open Scope string_scope.
Local Open Scope list_scope.
Local Open Scope Z_scope.

(** ** Exceptions and results *)

(** The exceptions the module can raise or let through.  [ValueError]
    carries its message. *)
Inductive exn : Type :=
  | ValueError (msg : string)
  | IndexError
  | KeyError (key : string)
  | ZeroDivisionError
  | JSONDecodeError
  | ExchangeError
  | OverflowError
  | OSError.

Inductive result (A : Type) : Type :=
  | Ok (a : A)
  | Raise (e : exn).
Arguments Ok {A} a.
Arguments Raise {A} e.

(** [result] is a monad: [x ← r; k] runs [k] unless [r] raised. *)
#[global] Instance result_ret : MRet result := @Ok.
#[global] Instance result_bind : MBind result := λ A B k r,
  match r with
  | Ok a => k a
  | Raise e => Raise e
  end.
#[global] Instance result_fmap : FMap result := λ A B f r,
  match r with
  | Ok a => Ok (f a)
  | Raise e => Raise e
  end.

(** ** Data model *)

(** One ticker row, the JSON array [[timestamp_ms, open, high, low, close,
    volume]].  The module only ever reads element [0]; the five prices are
    kept as an opaque payload. *)
Record candle : Type := Candle {
  timestamp_ms : Z;
  ohlcv : list Z
}.

#[global] Instance candle_eq_dec : EqDecision candle.
Proof. solve_decision. Defined.

(** [TimeRange] is the named tuple of [freqtrade.arguments]; the source shows
    its four fields in the order [TimeRange(None, None, 0, 0)] and compares
    the two type fields against ['line'], ['index'] and ['date']. *)
Record TimeRange : Type := mkTimeRange {
  starttype : option string;
  stoptype : option string;
  startts : Z;
  stopts : Z
}.

(** [field == 'name'] on an [Optional[str]]. *)
Definition is_type (field : option string) (name : string) : bool :=
  match field with
  | Some s => String.eqb s name
  | None => false
  end.

(** ** Python lists *)

Definition len {A} (l : list A) : Z := Z.of_nat (length l).

(** Clamping of one slice bound, as [slice.indices] does for step 1. *)
Definition slice_bound (n i : Z) : Z :=
  if i <? 0 then Z.max (i + n) 0 else Z.min i n.

(** [l[start:stop]]. *)
Definition py_slice {A} (l : list A) (start stop : Z) : list A :=
  let s := slice_bound (len l) start in
  let e := slice_bound (len l) stop in
  take (Z.to_nat (e - s)) (drop (Z.to_nat s) l).

(** [l[i]] for [0 <= i]; out of range raises [IndexError]. *)
Definition py_get {A} (l : list A) (i : nat) : result A :=
  match l !! i with
  | Some x => Ok x
  | None => Raise IndexError
  end.

(** [str(n)] for an integer. *)
Definition str_of_int (n : Z) : string := NilZero.string_of_int (Z.to_int n).

(** ** trim_tickerlist *)

(** The forward scan of the ['date'] start: [rest] is
    [tickerlist[start_index:]]; the loop stops at the end of the list or at
    the first row whose timestamp is not below [bound]. *)
Fixpoint scan_start (rest : list candle) (bound : Z) (start_index : Z) : Z :=
  match rest with
  | [] => start_index
  | r :: rest' =>
      if timestamp_ms r <? bound
      then scan_start rest' bound (start_index + 1)
      else start_index
  end.

(** The backward scan of the ['date'] stop, entered with [stop_index = S m]
    or [0]: reads [tickerlist[stop_index - 1]], which is out of range when a
    ['line'] start has put [stop_index] beyond the list. *)
Fixpoint scan_stop_from (tickerlist : list candle) (bound : Z) (stop_index : nat)
  : result nat :=
  match stop_index with
  | O => Ok O
  | S m =>
      r ← py_get tickerlist m;
      if bound <? timestamp_ms r
      then scan_stop_from tickerlist bound m
      else Ok (S m)
  end.

Definition scan_stop (tickerlist : list candle) (bound : Z) (stop_index : Z)
  : result Z :=
  if 0 <? stop_index
  then Z.of_nat <$> scan_stop_from tickerlist bound (Z.to_nat stop_index)
  else Ok stop_index.

(** [(start_index, stop_index)] after the three tests on [starttype]. *)
Definition start_side (tickerlist : list candle) (timerange : TimeRange) : Z * Z :=
  let start_index := 0 in
  let stop_index := len tickerlist in
  let stop_index :=
    if is_type (starttype timerange) "line" then startts timerange else stop_index in
  let start_index :=
    if is_type (starttype timerange) "index" then startts timerange
    else if is_type (starttype timerange) "date"
         then scan_start tickerlist (startts timerange * 1000) start_index
         else start_index in
  (start_index, stop_index).

(** [(start_index, stop_index)] after the three tests on [stoptype]. *)
Definition stop_side (tickerlist : list candle) (timerange : TimeRange)
    (bounds : Z * Z) : result (Z * Z) :=
  let '(start_index, stop_index) := bounds in
  let start_index :=
    if is_type (stoptype timerange) "line"
    then len tickerlist + stopts timerange else start_index in
  if is_type (stoptype timerange) "index" then Ok (start_index, stopts timerange)
  else if is_type (stoptype timerange) "date"
       then stop_index' ← scan_stop tickerlist (stopts timerange * 1000) stop_index;
            Ok (start_index, stop_index')
       else Ok (start_index, stop_index).

Definition resolve_indices (tickerlist : list candle) (timerange : TimeRange)
  : result (Z * Z) :=
  stop_side tickerlist timerange (start_side tickerlist timerange).

Definition timerange_message (timerange : TimeRange) : string :=
  "The timerange [" +:+ str_of_int (startts timerange) +:+ ","
    +:+ str_of_int (stopts timerange) +:+ "] is incorrect".

Definition trim_tickerlist (tickerlist : list candle) (timerange : TimeRange)
  : result (list candle) :=
  match tickerlist with
  | [] => Ok tickerlist
  | _ :: _ =>
      '(start_index, stop_index) ← resolve_indices tickerlist timerange;
      if stop_index <? start_index
      then Raise (ValueError (timerange_message timerange))
      else Ok (py_slice tickerlist start_index stop_index)
  end.

(** ** The world: clock, constants, data directory, log *)

(** What a cache file holds: a JSON array of ticker rows, which is what the
    module writes, or bytes that [json_load] rejects.  A file with other
    valid JSON (a [null], a number, an object) is outside this model: the
    statements below speak of files that are absent, hold an array, or do
    not decode. *)
Inductive file_content : Type :=
  | Series (rows : list candle)
  | Malformed.

(** The records the module hands to [logger], one constructor per call site,
    with the arguments of the format string. *)
Inductive log_record : Type :=
  | Warning_missing_frames (pair : string) (expected got missing : Z)
  | Info_download_pair (pair tick_interval : string)
  | Info_failed_download (pair tick_interval : string)
  | Debug_current_start (ms : option Z)
  | Debug_current_end (ms : option Z)
  | Debug_new_start (ms : Z)
  | Debug_new_end (ms : Z).

Record world : Type := World {
  files : gmap string file_content;
  logged : list log_record
}.

(** What the module reads from outside its own source: the clock
    ([arrow.utcnow()], in whole seconds since the epoch), the table
    [constants.TICKER_INTERVAL_MINUTES], the absolute path of the
    [tests/testdata] directory next to the package, and the two helpers of
    [freqtrade.misc] it calls.  [format_ms_time] is [misc.format_ms_time],
    which may raise on a timestamp it cannot turn into a date.
    [dump_failure filename data] is the exception with which writing [data]
    to [filename] fails, if it does (see [file_dump_json]). *)
Record Env : Type := mkEnv {
  utcnow : Z;
  TICKER_INTERVAL_MINUTES : gmap string Z;
  testdata_dir : string;
  format_ms_time : Z -> result string;
  dump_failure : string -> list candle -> option exn
}.

(** The exchange, through the one method the module calls. *)
Record Exchange : Type := mkExchange {
  get_history : string -> string -> Z -> result (list candle)
}.

(** Effectful code: a state over [world] that may raise. *)
Definition M (A : Type) : Type := world -> world * result A.

#[global] Instance M_ret : MRet M := λ A a w, (w, Ok a).
#[global] Instance M_bind : MBind M := λ A B k m w,
  match m w with
  | (w', Ok a) => k a w'
  | (w', Raise e) => (w', Raise e)
  end.

Definition lift {A} (r : result A) : M A := λ w, (w, r).

Definition log (r : log_record) : M unit :=
  λ w, (World (files w) (logged w ++ [r]), Ok ()).

Definition read_files : M (gmap string file_content) :=
  λ w, (w, Ok (files w)).

(** Modelled from the spec: [misc.file_dump_json(filename, data)] is not in
    the source.  The spec has the series written atomically to the path,
    fully overwriting it, and a write failure that is fatal and propagates:
    the write either replaces the file by the series or raises and leaves
    the files as they were. *)
Definition file_dump_json (env : Env) (filename : string) (data : list candle)
  : M unit :=
  λ w, match dump_failure env filename data with
       | Some e => (w, Raise e)
       | None => (World (<[filename := Series data]> (files w)) (logged w), Ok ())
       end.

(** Truth value of an [Optional[int]]: [None] and [0] are false. *)
Definition truthy (since_ms : option Z) : bool :=
  match since_ms with
  | Some s => negb (s =? 0)
  | None => false
  end.

(** ** validate_backtest_data *)

(** A preprocessed frame; the module only takes its [len]. *)
Definition DataFrame : Type := list candle.

(** *** The floats of [total_seconds()]

    Python's floats are IEEE binary64 numbers.  The module meets them in one
    expression, [(max_date - min_date).total_seconds() // 60 //
    ticker_interval_mins]: [total_seconds()] is the true division of the
    microseconds of the difference by [10 ** 6], an integer division rounded
    once to the nearest float with ties to even; the two floor divisions that
    follow are exact on the values a difference of two [datetime]s can
    take. *)

(** The binary scale under which the float nearest to [num / den] is an
    integer: that float is [nearest_float_scaled num den / 2 ^ ratio_scale
    den]. *)
Definition ratio_scale (den : Z) : Z := Z.log2 den + 54.

(** The float nearest to [num / den], for [0 < num] and [0 < den], times
    [2 ^ ratio_scale den].  [shift] is chosen so that the quotient by
    [den * 2 ^ shift] has 53 bits; the remainder decides the rounding. *)
Definition nearest_float_scaled (num den : Z) : Z :=
  let a := num * 2 ^ ratio_scale den in
  let shift := Z.log2 (a / den) - 52 in
  let unit := den * 2 ^ shift in
  let m0 := a / unit in
  let rem := a mod unit in
  let m :=
    if (unit <? 2 * rem) || ((unit =? 2 * rem) && Z.odd m0) then m0 + 1 else m0 in
  m * 2 ^ shift.

(** [timedelta.total_seconds()] of a difference of [us] microseconds, times
    [2 ^ ratio_scale 1000000]. *)
Definition total_seconds_scaled (us : Z) : Z :=
  if us =? 0 then 0
  else Z.sgn us * nearest_float_scaled (Z.abs us) 1000000.

(** [total_seconds() // 60], a float with an integer value. *)
Definition whole_minutes (us : Z) : Z :=
  total_seconds_scaled us / (60 * 2 ^ ratio_scale 1000000).

(** The conversion of the [int] operand of [float // int]: the nearest float
    (an integer again), or [OverflowError] beyond the largest float. *)
Definition float_of_int (n : Z) : result Z :=
  if n =? 0 then Ok 0
  else
    let v := nearest_float_scaled (Z.abs n) 1 / 2 ^ ratio_scale 1 in
    if 2 ^ 1024 <=? v then Raise OverflowError else Ok (Z.sgn n * v).

(** [int((max_date - min_date).total_seconds() // 60 // ticker_interval_mins)],
    with a [datetime] as its microseconds since the epoch.  [Z.div] rounds
    down, as [//] does. *)
Definition expected_frames_of (min_date max_date ticker_interval_mins : Z)
  : result Z :=
  interval ← float_of_int ticker_interval_mins;
  if interval =? 0 then Raise ZeroDivisionError
  else Ok (whole_minutes (max_date - min_date) / interval).

(** The loop over [data.items()], in the dict's order. *)
Fixpoint validate_frames (items : list (string * DataFrame)) (expected_frames : Z)
    (found_missing : bool) : M bool :=
  match items with
  | [] => mret found_missing
  | (pair_, df) :: rest =>
      let dflen := len df in
      if dflen <? expected_frames
      then _ ← log (Warning_missing_frames pair_ expected_frames dflen
                      (expected_frames - dflen));
           validate_frames rest expected_frames true
      else validate_frames rest expected_frames found_missing
  end.

Definition validate_backtest_data (data : list (string * DataFrame))
    (min_date max_date : Z) (ticker_interval_mins : Z) : M bool :=
  expected_frames ← lift (expected_frames_of min_date max_date ticker_interval_mins);
  validate_frames data expected_frames false.

(** ** load_cached_data_for_updating *)

(** The timestamps, in seconds, of [datetime.min] (year 1) and of the last
    second of [datetime.max] (year 9999). *)
Definition datetime_min_s : Z := -62135596800.
Definition datetime_max_s : Z := 253402300799.

(** [arrow.utcnow().shift(minutes=num_minutes).timestamp]: adding the
    minutes to the clock raises [OverflowError] when the date leaves the
    years 1 to 9999. *)
Definition shifted_timestamp (env : Env) (num_minutes : Z) : result Z :=
  let moved := utcnow env + num_minutes * 60 in
  if (datetime_min_s <=? moved) && (moved <=? datetime_max_s)
  then Ok moved
  else Raise OverflowError.

(** The first block: [since_ms] as the time range asks for it. *)
Definition requested_since (env : Env) (tick_interval : string)
    (timerange : option TimeRange) : result (option Z) :=
  match timerange with
  | None => Ok None
  | Some timerange =>
      if is_type (starttype timerange) "date"
      then Ok (Some (startts timerange * 1000))
      else if is_type (stoptype timerange) "line"
      then match TICKER_INTERVAL_MINUTES env !! tick_interval with
           | None => Raise (KeyError tick_interval)
           | Some mins =>
               let num_minutes := stopts timerange * mins in
               moved ← shifted_timestamp env num_minutes;
               Ok (Some (moved * 1000))
           end
      else Ok None
  end.

(** The second block: the cached rows without the last one, or no rows. *)
Definition read_cache (fs : gmap string file_content) (filename : string)
  : result (list candle) :=
  match fs !! filename with
  | Some (Series data) => Ok (removelast data)
  | Some Malformed => Raise JSONDecodeError
  | None => Ok []
  end.

(** [since_ms and since_ms < data[0][0]]. *)
Definition requested_before (since_ms : option Z) (first : candle) : bool :=
  match since_ms with
  | Some s => negb (s =? 0) && (s <? timestamp_ms first)
  | None => false
  end.

Definition load_cached_data_for_updating (env : Env)
    (fs : gmap string file_content) (filename tick_interval : string)
    (timerange : option TimeRange) : result (list candle * option Z) :=
  since_ms ← requested_since env tick_interval timerange;
  data ← read_cache fs filename;
  match data with
  | [] => Ok (data, since_ms)
  | first :: _ =>
      if requested_before since_ms first
      then Ok ([], since_ms)
      else
        match last data with
        | Some r => Ok (data, Some (timestamp_ms r + 1))
        | None => Raise IndexError
        end
  end.

(** ** download_backtesting_testdata and download_pairs *)

(** [pair.replace('/', '_')]. *)
Fixpoint replace_slash (s : string) : string :=
  match s with
  | EmptyString => EmptyString
  | String a s' =>
      String (if Ascii.eqb a "/" then "_"%char else a) (replace_slash s')
  end.

Definition starts_with_slash (s : string) : bool :=
  match s with
  | String a _ => Ascii.eqb a "/"
  | EmptyString => false
  end.

Fixpoint ends_with_slash (s : string) : bool :=
  match s with
  | EmptyString => false
  | String a EmptyString => Ascii.eqb a "/"
  | String _ s' => ends_with_slash s'
  end.

(** [os.path.join(a, p)] on a POSIX system. *)
Definition path_join (a p : string) : string :=
  if starts_with_slash p then p
  else if String.eqb a "" || ends_with_slash a then a +:+ p
  else a +:+ "/" +:+ p.

(** [datadir or <tests/testdata next to the package>]. *)
Definition make_testdata_path (env : Env) (datadir : string) : string :=
  if String.eqb datadir "" then testdata_dir env else datadir.

(** [since_ms if since_ms else int(utcnow().shift(days=-30).float_timestamp) * 1000].
    The clock is a present-day one: 30 days before it is a date. *)
Definition since_or_default (env : Env) (since_ms : option Z) : Z :=
  match since_ms with
  | Some s => if s =? 0 then (utcnow env - 30 * 86400) * 1000 else s
  | None => (utcnow env - 30 * 86400) * 1000
  end.

(** The argument [misc.format_ms_time(r[0])] of a debug line: the call is
    made before the line is logged, and the log keeps the timestamp. *)
Definition formatted (env : Env) (r : candle) : result (option Z) :=
  _ ← format_ms_time env (timestamp_ms r); Ok (Some (timestamp_ms r)).

Definition download_backtesting_testdata (env : Env) (datadir : string)
    (exchange : Exchange) (pair tick_interval : string)
    (timerange : option TimeRange) : M unit :=
  let path := make_testdata_path env datadir in
  let filepair := replace_slash pair in
  let filename := path_join path (filepair +:+ "-" +:+ tick_interval +:+ ".json") in
  _ ← log (Info_download_pair pair tick_interval);
  fs ← read_files;
  '(data, since_ms) ←
    lift (load_cached_data_for_updating env fs filename tick_interval timerange);
  (* misc.format_ms_time(data[1][0]) if data else 'None' *)
  current_start ← lift (match data with
                        | [] => Ok None
                        | _ :: _ => r ← py_get data 1; formatted env r
                        end);
  _ ← log (Debug_current_start current_start);
  (* misc.format_ms_time(data[-1][0]) if data else 'None' *)
  current_end ← lift (match last data with
                      | None => Ok None
                      | Some r => formatted env r
                      end);
  _ ← log (Debug_current_end current_end);
  new_data ← lift (get_history exchange pair tick_interval
                     (since_or_default env since_ms));
  let data := (data ++ new_data) in
  new_start ← lift (r ← py_get data 0; _ ← format_ms_time env (timestamp_ms r);
                    Ok (timestamp_ms r));
  _ ← log (Debug_new_start new_start);
  new_end ← lift (match last data with
                  | Some r => _ ← format_ms_time env (timestamp_ms r);
                              Ok (timestamp_ms r)
                  | None => Raise IndexError
                  end);
  _ ← log (Debug_new_end new_end);
  file_dump_json env filename data.

(** The loop with its [try ... except BaseException: ... return False]. *)
Fixpoint download_pairs (env : Env) (datadir : string) (exchange : Exchange)
    (pairs : list string) (ticker_interval : string)
    (timerange : option TimeRange) (w : world) : world * bool :=
  match pairs with
  | [] => (w, true)
  | pair_ :: rest =>
      match download_backtesting_testdata env datadir exchange pair_
              ticker_interval timerange w with
      | (w', Ok _) =>
          download_pairs env datadir exchange rest ticker_interval timerange w'
      | (w', Raise _) =>
          (World (files w') (logged w' ++ [Info_failed_download pair_ ticker_interval]),
           false)
      end
  end.

(** ** load_tickerdata_file and load_data *)

(** The name both [load_tickerdata_file] and [download_backtesting_testdata]
    compute for a pair and an interval:
    [os.path.join(make_testdata_path(datadir), f'{pair_s}-{interval}.json')]. *)
Definition cache_file (env : Env) (datadir pair tick_interval : string) : string :=
  path_join (make_testdata_path env datadir)
    (replace_slash pair +:+ "-" +:+ tick_interval +:+ ".json").

(** The log of the loading side: its own call sites, and the records the
    download code logged in between. *)
Inductive load_record : Type :=
  | Logged (r : log_record)
  | Debug_loading (file : string)
  | Info_download_all (datadir : string)
  | Warning_missing_start (pair : string) (starts_at_s : Z)
  | Warning_missing_end (pair : string) (ends_at_s : Z)
  | Warning_no_data (pair ticker_interval : string).

(** [load_data] raises [OperationalException] itself and lets the exceptions
    of the functions it calls through. *)
Inductive load_exn : Type :=
  | OperationalException (msg : string)
  | Propagated (e : exn).

Inductive load_result (A : Type) : Type :=
  | Loaded (a : A)
  | Failed (e : load_exn).
Arguments Loaded {A} a.
Arguments Failed {A} e.

Record load_world : Type := LoadWorld {
  lw_files : gmap string file_content;
  lw_logged : list load_record
}.

Definition load_log (r : load_record) (w : load_world) : load_world :=
  LoadWorld (lw_files w) (lw_logged w ++ [r]).

(** [json.load] on an opened file, then [trim_tickerlist] if a range is
    given ([if timerange:] holds for every named tuple). *)
Definition decode_and_trim (content : file_content)
    (timerange : option TimeRange) : load_result (option (list candle)) :=
  match content with
  | Malformed => Failed (Propagated JSONDecodeError)
  | Series pairdata =>
      match timerange with
      | None => Loaded (Some pairdata)
      | Some timerange =>
          match trim_tickerlist pairdata timerange with
          | Ok pairdata => Loaded (Some pairdata)
          | Raise e => Failed (Propagated e)
          end
      end
  end.

Definition load_tickerdata_file (env : Env) (datadir pair ticker_interval : string)
    (timerange : option TimeRange) (w : load_world)
  : load_world * load_result (option (list candle)) :=
  let file := cache_file env datadir pair ticker_interval in
  let gzipfile := file +:+ ".gz" in
  match lw_files w !! gzipfile with
  | Some content =>
      (load_log (Debug_loading gzipfile) w, decode_and_trim content timerange)
  | None =>
      match lw_files w !! file with
      | Some content =>
          (load_log (Debug_loading file) w, decode_and_trim content timerange)
      | None => (w, Loaded None)
      end
  end.

(** [d[k] = v] on a dict kept in insertion order: an existing key keeps its
    place. *)
Fixpoint dict_set {V} (d : list (string * V)) (k : string) (v : V)
  : list (string * V) :=
  match d with
  | [] => [(k, v)]
  | (k', v') :: d' =>
      if String.eqb k' k then (k', v) :: d' else (k', v') :: dict_set d' k v
  end.

(** The two boundary warnings of [load_data] for a non-empty [pairdata]. *)
Definition warn_boundaries (pair_ : string) (timerange : TimeRange)
    (first last_ : candle) (w : load_world) : load_world :=
  let w :=
    if is_type (starttype timerange) "date"
       && (startts timerange * 1000 <? timestamp_ms first)
    then load_log (Warning_missing_start pair_ (timestamp_ms first / 1000)) w
    else w in
  if is_type (stoptype timerange) "date"
     && (timestamp_ms last_ <? stopts timerange * 1000)
  then load_log (Warning_missing_end pair_ (timestamp_ms last_ / 1000)) w
  else w.

(** The loop [for pair in pairs] of [load_data], with [result] the dict built
    so far. *)
Fixpoint load_pairs (env : Env) (datadir ticker_interval : string)
    (pairs : list string) (timerange : TimeRange)
    (result : list (string * list candle)) (w : load_world)
  : load_world * load_result (list (string * list candle)) :=
  match pairs with
  | [] => (w, Loaded result)
  | pair_ :: rest =>
      match load_tickerdata_file env datadir pair_ ticker_interval
              (Some timerange) w with
      | (w', Failed e) => (w', Failed e)
      | (w', Loaded (Some ((first :: _) as pairdata))) =>
          match last pairdata with
          | Some last_ =>
              load_pairs env datadir ticker_interval rest timerange
                (dict_set result pair_ pairdata)
                (warn_boundaries pair_ timerange first last_ w')
          | None => (w', Failed (Propagated IndexError))
          end
      | (w', Loaded _) =>
          load_pairs env datadir ticker_interval rest timerange result
            (load_log (Warning_no_data pair_ ticker_interval) w')
      end
  end.

Definition load_data (env : Env) (datadir ticker_interval : string)
    (pairs : list string) (refresh_pairs : bool) (exchange : option Exchange)
    (timerange : TimeRange) (w : load_world)
  : load_world * load_result (list (string * list candle)) :=
  if refresh_pairs
  then
    let w := load_log (Info_download_all datadir) w in
    match exchange with
    | None =>
        (w, Failed (OperationalException
              "Exchange needs to be initialized when calling load_data with refresh_pairs=True"))
    | Some exchange =>
        let '(dw, _) :=
          download_pairs env datadir exchange pairs ticker_interval
            (Some timerange) (World (lw_files w) []) in
        load_pairs env datadir ticker_interval pairs timerange []
          (LoadWorld (files dw) (lw_logged w ++ (Logged <$> logged dw)))
    end
  else load_pairs env datadir ticker_interval pairs timerange [] w.

(** ** Predicates used in the statements *)

(** A file that holds a non-empty series. *)
Definition holds_rows (fs : gmap string file_content) (name : string) : Prop :=
  ∃ data, fs !! name = Some (Series data) ∧ data ≠ [].

(** [load_tickerdata_file] returns the non-empty list [pairdata] for a pair
    under a range. *)
Definition loads_rows (env : Env) (datadir ticker_interval : string)
    (timerange : TimeRange) (w : load_world) (pair_ : string)
    (pairdata : list candle) : Prop :=
  pairdata ≠ [] ∧
  (load_tickerdata_file env datadir pair_ ticker_interval (Some timerange) w).2
  = Loaded (Some pairdata).

(** *** The two indices of [trim_tickerlist], told on the input

    Steps 1 and 2 of the range resolution as the spec words them, with the
    two scans described by where they stop instead of by a loop.
    [resolve_indices] is the source; these predicates are what it is
    compared with. *)

(** Where the forward scan stops: the first index whose row is not below
    [bound], or the length of the list when every row is below it. *)
Definition first_not_below (tickerlist : list candle) (bound i : Z) : Prop :=
  0 ≤ i ≤ len tickerlist ∧
  (∀ (k : nat) r, Z.of_nat k < i → tickerlist !! k = Some r →
     timestamp_ms r < bound) ∧
  (∀ r, tickerlist !! Z.to_nat i = Some r → bound ≤ timestamp_ms r).

(** Where the backward scan entered at [from] stops: at [from] when that is
    not positive; otherwise [from] is within the list, the rows from the
    stop up to [from] are all above [bound], and the row just below the stop,
    if there is one, is not.  A scan entered beyond the list stops
    nowhere. *)
Definition last_not_above (tickerlist : list candle) (bound from j : Z) : Prop :=
  (from ≤ 0 ∧ j = from) ∨
  (0 < from ≤ len tickerlist ∧ 0 ≤ j ≤ from ∧
   (∀ (k : nat) r, j ≤ Z.of_nat k < from → tickerlist !! k = Some r →
      bound < timestamp_ms r) ∧
   (∀ r, 0 < j → tickerlist !! Z.to_nat (j - 1) = Some r →
      timestamp_ms r ≤ bound)).

(** The start index: a ['line'] stop puts it at the length plus the stop
    value, whatever the start says; otherwise an ['index'] start gives it, a
    ['date'] start scans for it, and it is 0 for any other start. *)
Definition resolved_start_index (tickerlist : list candle) (timerange : TimeRange)
    (start_index : Z) : Prop :=
  if is_type (stoptype timerange) "line"
  then start_index = len tickerlist + stopts timerange
  else if is_type (starttype timerange) "index"
  then start_index = startts timerange
  else if is_type (starttype timerange) "date"
  then first_not_below tickerlist (startts timerange * 1000) start_index
  else start_index = 0.

(** The stop index: an ['index'] stop gives it; otherwise it is the start
    value of a ['line'] start, or the length of the list, moved down by the
    backward scan when the stop is a ['date']. *)
Definition resolved_stop_index (tickerlist : list candle) (timerange : TimeRange)
    (stop_index : Z) : Prop :=
  let from :=
    if is_type (starttype timerange) "line"
    then startts timerange else len tickerlist in
  if is_type (stoptype timerange) "index"
  then stop_index = stopts timerange
  else if is_type (stoptype timerange) "date"
  then last_not_above tickerlist (stopts timerange * 1000) from stop_index
  else stop_index = from.

(** ** Ordered series *)

(** A series in ascending order of its timestamps (equal neighbours
    allowed). *)
Definition by_timestamp (a b : candle) : Prop := timestamp_ms a ≤ timestamp_ms b.

Definition ascending (tickerlist : list candle) : Prop :=
  Sorted by_timestamp tickerlist.

(** The frames with fewer rows than expected. *)
Definition short_frame (expected_frames : Z) (item : string * DataFrame) : bool :=
  len item.2 <? expected_frames.

(** ** Sample data for the worked examples *)

Definition row (t : Z) : candle := Candle t [].

Definition rows (ts : list Z) : list candle := map row ts.

Definition sample_env : Env :=
  mkEnv 1700000000 {[ "5m" := 5 ]} "/freqtrade/tests/testdata"
    (λ ms, Ok (str_of_int ms)) (λ _ _, None).

(** An exchange that refuses one pair and answers two rows for any other. *)
Definition sample_exchange : Exchange :=
  mkExchange (λ pair _ since_ms,
    if String.eqb pair "ETH/BTC" then Raise ExchangeError
    else Ok [row since_ms; row (since_ms + 300000)]).

Definition sample_range : TimeRange := mkTimeRange (Some "date") (Some "date") 3 4.

(** An exchange that answers every request with two rows. *)
Definition steady_exchange : Exchange :=
  mkExchange (λ _ _ since_ms, Ok [row since_ms; row (since_ms + 300000)]).

(** * Properties *)

(** ** Slices *)

Section slices.
Context {A : Type}.
Implicit Types l : list A.

Lemma len_nonneg l : 0 ≤ len l.
Proof. unfold len. lia. Qed.

(** With [0 <= i <= j] nothing wraps around. *)
Lemma py_slice_nonneg l i j :
  0 ≤ i → i ≤ j →
  py_slice l i j = take (Z.to_nat j - Z.to_nat i) (drop (Z.to_nat i) l).
Proof.
  intros Hi Hij. unfold py_slice, slice_bound, len.
  destruct (Z.ltb_spec i 0); [lia|].
  destruct (Z.ltb_spec j 0); [lia|].
  destruct (Z.le_gt_cases i (Z.of_nat (length l))) as [Hin|Hin].
  - rewrite (Z.min_l i) by lia.
    destruct (Z.le_gt_cases j (Z.of_nat (length l))) as [Hjn|Hjn].
    + rewrite Z.min_l by lia. f_equal. lia.
    + rewrite Z.min_r by lia.
      rewrite !take_ge; [done| |]; rewrite length_drop; lia.
  - rewrite (Z.min_r i) by lia.
    rewrite (drop_ge l (Z.to_nat i)) by lia.
    rewrite drop_ge by lia. by rewrite !take_nil.
Qed.

Lemma py_slice_all l : py_slice l 0 (len l) = l.
Proof.
  rewrite py_slice_nonneg by (pose proof (len_nonneg l); lia).
  unfold len. rewrite drop_0, take_ge; [done|lia].
Qed.

(** A slice that was not refused splits the list around it. *)
Lemma py_slice_split l i j :
  0 ≤ i → i ≤ j →
  l = take (Z.to_nat i) l ++ py_slice l i j ++ drop (Z.to_nat j) l.
Proof.
  intros Hi Hij. rewrite py_slice_nonneg by done.
  rewrite app_assoc, take_take_drop.
  replace (Z.to_nat i + (Z.to_nat j - Z.to_nat i))%nat with (Z.to_nat j) by lia.
  by rewrite take_drop.
Qed.
End slices.

(** ** trim_tickerlist *)

Lemma scan_stop_from_raises tickerlist bound n e :
  scan_stop_from tickerlist bound n = Raise e → e = IndexError.
Proof.
  induction n as [|n IH]; simpl; [done|].
  unfold py_get. destruct (tickerlist !! n) as [r|]; simpl.
  - destruct (bound <? timestamp_ms r); [done|discriminate].
  - congruence.
Qed.

(** Resolving the two indices can only fail on an out-of-range read. *)
Lemma resolve_indices_raises tickerlist timerange e :
  resolve_indices tickerlist timerange = Raise e → e = IndexError.
Proof.
  unfold resolve_indices, stop_side.
  destruct (start_side tickerlist timerange) as [i j].
  destruct (is_type (stoptype timerange) "index"); [done|].
  destruct (is_type (stoptype timerange) "date"); [|done].
  unfold scan_stop. destruct (0 <? j); simpl; [|done].
  destruct (scan_stop_from _ _ _) as [n|e'] eqn:E; simpl; [done|].
  intros [= <-]. by eapply scan_stop_from_raises.
Qed.

(** C9: with no constraint on either side ([starttype] and [stoptype] both
    [None]) [trim_tickerlist] returns the list it was given, whatever the
    two values are. *)
Theorem trim_tickerlist_unconstrained (tickerlist : list candle) (a b : Z) :
  trim_tickerlist tickerlist (mkTimeRange None None a b) = Ok tickerlist.
Proof.
  destruct tickerlist as [|r l]; [done|].
  unfold trim_tickerlist, resolve_indices, start_side, stop_side; simpl.
  pose proof (len_nonneg (r :: l)).
  destruct (Z.ltb_spec (len (r :: l)) 0); [lia|].
  by rewrite py_slice_all.
Qed.

(** On the empty list the indices are not looked at: the same range that
    makes the backward scan read out of range on a non-empty list is
    accepted. *)
Example trim_tickerlist_empty_unchecked :
  let timerange := mkTimeRange (Some "line") (Some "date") 9 3 in
  trim_tickerlist [] timerange = Ok [] ∧
  trim_tickerlist (rows [1000; 2000; 3000; 4000]) timerange = Raise IndexError.
Proof. split; reflexivity. Qed.

(** What a ['line'] stop with a value [-k] returns when the list has at least
    [k] rows and the start is not a ['line']: its last [k] rows. *)
Lemma trim_tickerlist_line_stop tickerlist starttype_ startts_ v :
  is_type starttype_ "line" = false →
  - len tickerlist ≤ v ≤ 0 →
  trim_tickerlist tickerlist (mkTimeRange starttype_ (Some "line") startts_ v)
  = Ok (drop (Z.to_nat (len tickerlist + v)) tickerlist).
Proof.
  intros Hl Hv.
  destruct tickerlist as [|r l].
  { unfold len in *; simpl in *. by replace v with 0 by lia. }
  unfold trim_tickerlist, resolve_indices, start_side, stop_side; simpl.
  rewrite Hl; simpl.
  destruct (Z.ltb_spec (len (r :: l)) (len (r :: l) + v)); [lia|].
  rewrite py_slice_nonneg by lia.
  rewrite take_ge; [done|]. rewrite length_drop. unfold len in *. lia.
Qed.

(** A negative start-side ['line'] value puts the stop index below the
    start index 0, which a non-empty list refuses. *)
Lemma trim_tickerlist_line_start_negative r l v stopts_ :
  v < 0 →
  trim_tickerlist (r :: l) (mkTimeRange (Some "line") None v stopts_)
  = Raise (ValueError (timerange_message (mkTimeRange (Some "line") None v stopts_))).
Proof.
  intros Hv.
  unfold trim_tickerlist, resolve_indices, start_side, stop_side; simpl.
  by destruct (Z.ltb_spec v 0); [|lia].
Qed.

(** C6, amended: the two meanings of ['line'].  On the start side the value
    becomes the stop index and the start index stays 0; alone, a value
    [v >= 0] selects the rows before index [v], and a negative value is
    refused with the [ValueError] on a list that is not empty.  On the stop
    side the value is added to the length to give the start index, so that
    [-5] alone selects the last 5 rows of a list of 20. *)
Theorem line_mode_dual_semantics (tickerlist : list candle) (v other : Z)
    (other_type : option string) :
  start_side tickerlist (mkTimeRange (Some "line") other_type v other) = (0, v) ∧
  resolve_indices tickerlist (mkTimeRange other_type (Some "line") other v)
  = Ok (len tickerlist + v,
        snd (start_side tickerlist (mkTimeRange other_type (Some "line") other v))) ∧
  (0 ≤ v →
   trim_tickerlist tickerlist (mkTimeRange (Some "line") None v other)
   = Ok (py_slice tickerlist 0 v) ∧
   py_slice tickerlist 0 v = take (Z.to_nat v) tickerlist) ∧
  (v < 0 → tickerlist ≠ [] →
   trim_tickerlist tickerlist (mkTimeRange (Some "line") None v other)
   = Raise (ValueError ("The timerange [" +:+ str_of_int v +:+ ","
                          +:+ str_of_int other +:+ "] is incorrect"))) ∧
  (length tickerlist = 20%nat →
   trim_tickerlist tickerlist (mkTimeRange None (Some "line") other (-5))
   = Ok (drop 15 tickerlist) ∧
   length (drop 15 tickerlist) = 5%nat ∧
   tickerlist = take 15 tickerlist ++ drop 15 tickerlist).
Proof.
  split; [done|]. split; [|split; [|split]].
  - unfold resolve_indices, stop_side.
    by destruct (start_side _ _) as [i j].
  - intros Hv. split.
    + destruct tickerlist as [|r l].
      { unfold py_slice. by rewrite drop_nil, take_nil. }
      unfold trim_tickerlist, resolve_indices, start_side, stop_side; simpl.
      by destruct (Z.ltb_spec v 0); [lia|].
    + rewrite py_slice_nonneg by lia.
      rewrite drop_0. f_equal. lia.
  - intros Hv Hne. destruct tickerlist as [|r l]; [done|].
    by rewrite trim_tickerlist_line_start_negative.
  - intros Hlen. split; [|split].
    + rewrite trim_tickerlist_line_stop; try done.
      * unfold len. rewrite Hlen. done.
      * unfold len. rewrite Hlen. lia.
    + rewrite length_drop. lia.
    + by rewrite take_drop.
Qed.

(** A list of 20 rows under [TimeRange(None, 'line', 0, -5)], and a
    start-side ['line'] of 3 on the same list. *)
Lemma line_mode_dual_semantics_witness :
  let tickerlist := rows (Z.of_nat <$> seq 1 20) in
  trim_tickerlist tickerlist (mkTimeRange None (Some "line") 0 (-5))
  = Ok (rows [16; 17; 18; 19; 20]) ∧
  trim_tickerlist tickerlist (mkTimeRange (Some "line") None 3 0)
  = Ok (rows [1; 2; 3]).
Proof.
  intros tickerlist. split.
  - pose proof (line_mode_dual_semantics tickerlist (-5) 0 None)
      as (_ & _ & _ & _ & H).
    destruct (H eq_refl) as (-> & _). reflexivity.
  - pose proof (line_mode_dual_semantics tickerlist 3 0 None)
      as (_ & _ & H & _).
    destruct H as (-> & ->); [lia|reflexivity].
Defined.

(** C6 as worded has every start-side value return the slice that ends at
    it.  For [-1] on three rows that slice is the first two rows; the call
    raises instead. *)
Lemma line_start_negative_refused :
  let tickerlist := rows [1000; 2000; 3000] in
  py_slice tickerlist 0 (-1) = rows [1000; 2000] ∧
  trim_tickerlist tickerlist (mkTimeRange (Some "line") None (-1) 0)
  = Raise (ValueError "The timerange [-1,0] is incorrect").
Proof. split; reflexivity. Qed.

Lemma is_type_true field name : is_type field name = true ↔ field = Some name.
Proof.
  destruct field as [s|]; simpl; [|done].
  rewrite String.eqb_eq. split; congruence.
Qed.

Lemma is_type_false field name : is_type field name = false ↔ field ≠ Some name.
Proof. rewrite <-is_type_true. by destruct (is_type field name). Qed.

#[global] Instance by_timestamp_trans : Transitive by_timestamp.
Proof. unfold by_timestamp. intros a b d. lia. Qed.

(** The forward scan counts the leading rows below the bound. *)
Lemma scan_start_spec rest bound k :
  ∃ n : nat,
    scan_start rest bound k = k + Z.of_nat n ∧
    (n ≤ length rest)%nat ∧
    (∀ r, r ∈ take n rest → timestamp_ms r < bound) ∧
    (∀ r, rest !! n = Some r → bound ≤ timestamp_ms r).
Proof.
  revert k. induction rest as [|r rest IH]; intros k; simpl.
  { exists 0%nat. split; [lia|]. split; [done|]. split; [|done].
    intros r. by rewrite elem_of_nil. }
  destruct (Z.ltb_spec (timestamp_ms r) bound) as [Hlt|Hge].
  - destruct (IH (k + 1)) as (n & -> & Hn & Hbelow & Hat).
    exists (S n). split; [lia|]. split; [simpl; lia|]. split; [|done].
    intros r'. simpl. rewrite elem_of_cons. intros [->|?]; auto.
  - exists 0%nat. split; [lia|]. split; [simpl; lia|]. split.
    + intros r'. simpl. by rewrite elem_of_nil.
    + simpl. by intros r' [= <-].
Qed.

(** The backward scan, when it does not read out of range: it stops below
    rows that are all above the bound, on a row that is not. *)
Lemma scan_stop_from_spec l bound (n m : nat) :
  scan_stop_from l bound n = Ok m →
  (m ≤ n)%nat ∧
  (∀ (k : nat) r, (m ≤ k < n)%nat → l !! k = Some r → bound < timestamp_ms r) ∧
  (∀ r, (0 < m)%nat → l !! pred m = Some r → timestamp_ms r ≤ bound).
Proof.
  revert m. induction n as [|n IH]; intros m; simpl.
  { intros [= <-]. split; [lia|]. split; intros; lia. }
  unfold py_get. destruct (l !! n) as [r|] eqn:E; simpl; [|done].
  destruct (Z.ltb_spec bound (timestamp_ms r)) as [Hlt|Hge].
  - intros (Hm & Habove & Hat)%IH. split; [lia|]. split; [|done].
    intros k r' Hk Hr'. destruct (decide (k = n)) as [->|]; [by simplify_eq|].
    apply (Habove k); [lia|done].
  - intros [= <-]. split; [lia|]. split; [intros; lia|].
    simpl. intros r' _ Hr'. by simplify_eq.
Qed.

(** Within the list the backward scan never fails. *)
Lemma scan_stop_from_in_range l bound (n : nat) :
  (n ≤ length l)%nat → ∃ m, scan_stop_from l bound n = Ok m.
Proof.
  induction n as [|n IH]; intros Hn; simpl; [by eexists|].
  unfold py_get. destruct (lookup_lt_is_Some_2 l n) as [r ->]; [lia|]. simpl.
  destruct (bound <? timestamp_ms r); [apply IH; lia|by eexists].
Qed.

Lemma scan_stop_from_out_of_range l bound (n : nat) :
  (length l < n)%nat → scan_stop_from l bound n = Raise IndexError.
Proof.
  destruct n as [|n]; [lia|]. intros Hn. simpl. unfold py_get.
  by rewrite lookup_ge_None_2 by lia.
Qed.

(** The forward scan stops where [first_not_below] says, and nowhere else. *)
Lemma first_not_below_iff tickerlist bound i :
  first_not_below tickerlist bound i ↔ scan_start tickerlist bound 0 = i.
Proof.
  destruct (scan_start_spec tickerlist bound 0) as (n & -> & Hn & Hbelow & Hat).
  unfold first_not_below, len. split.
  - intros (Hi & Hbefore & Hhere).
    destruct (Z.lt_trichotomy i (Z.of_nat n)) as [Hlt|[->|Hgt]]; [|lia|].
    + destruct (lookup_lt_is_Some_2 tickerlist (Z.to_nat i)) as [r Hr]; [lia|].
      pose proof (Hhere r Hr).
      assert (timestamp_ms r < bound); [|lia].
      apply Hbelow. apply elem_of_take. exists (Z.to_nat i). split; [done|lia].
    + destruct (lookup_lt_is_Some_2 tickerlist n) as [r Hr]; [lia|].
      pose proof (Hat r Hr). pose proof (Hbefore n r Hgt Hr). lia.
  - intros <-. split; [lia|]. split.
    + intros k r Hk Hr. apply Hbelow. apply elem_of_take.
      exists k. split; [done|lia].
    + replace (Z.to_nat (0 + Z.of_nat n)) with n by lia. done.
Qed.

(** The backward scan stops where [last_not_above] says, and nowhere else;
    entered beyond the list it stops nowhere and the read fails. *)
Lemma last_not_above_iff tickerlist bound from j :
  last_not_above tickerlist bound from j ↔ scan_stop tickerlist bound from = Ok j.
Proof.
  unfold last_not_above, scan_stop, len.
  destruct (Z.ltb_spec 0 from) as [Hpos|Hneg].
  2:{ split; [intros [[_ ->]|[? _]]; [done|lia]|]. intros [= <-]. by left. }
  destruct (decide (from ≤ Z.of_nat (length tickerlist))) as [Hin|Hout].
  2:{ rewrite scan_stop_from_out_of_range by lia. simpl.
      split; [intros [[? _]|[? _]]; lia|done]. }
  destruct (scan_stop_from_in_range tickerlist bound (Z.to_nat from))
    as [m Hm]; [lia|].
  rewrite Hm. simpl.
  apply scan_stop_from_spec in Hm as (Hle & Habove & Hat).
  split.
  - intros [[? _]|(_ & Hj & Hrun & Hbelow)]; [lia|]. f_equal.
    destruct (Z.lt_trichotomy j (Z.of_nat m)) as [Hlt|[->|Hgt]]; [|done|].
    + destruct (lookup_lt_is_Some_2 tickerlist (pred m)) as [r Hr]; [lia|].
      assert (timestamp_ms r ≤ bound) by (apply Hat; [lia|done]).
      assert (bound < timestamp_ms r); [|lia].
      apply (Hrun (pred m)); [lia|done].
    + destruct (lookup_lt_is_Some_2 tickerlist (Z.to_nat (j - 1))) as [r Hr];
        [lia|].
      assert (timestamp_ms r ≤ bound) by (apply Hbelow; [lia|done]).
      assert (bound < timestamp_ms r); [|lia].
      apply (Habove (Z.to_nat (j - 1))); [lia|done].
  - intros [= <-]. right. split; [lia|]. split; [lia|]. split.
    + intros k r Hk Hr. apply (Habove k); [lia|done].
    + intros r Hm Hr. apply Hat; [lia|].
      by replace (pred m) with (Z.to_nat (Z.of_nat m - 1)) by lia.
Qed.

(** The indices the code resolves are the ones described on the input; when
    the code's backward scan reads out of range, no stop index fits the
    description. *)
Lemma resolve_indices_spec tickerlist timerange start_index stop_index :
  resolve_indices tickerlist timerange = Ok (start_index, stop_index) ↔
  resolved_start_index tickerlist timerange start_index ∧
  resolved_stop_index tickerlist timerange stop_index.
Proof.
  unfold resolve_indices, stop_side, start_side,
    resolved_start_index, resolved_stop_index.
  set (from := if is_type (starttype timerange) "line" then _ else _).
  destruct (is_type (stoptype timerange) "line"),
    (is_type (stoptype timerange) "index"),
    (is_type (stoptype timerange) "date"),
    (is_type (starttype timerange) "index"),
    (is_type (starttype timerange) "date");
    rewrite ?first_not_below_iff, ?last_not_above_iff;
    try destruct (scan_stop tickerlist _ from) as [j|e]; simpl;
    (split; [intros [= <- <-]; by split|intros [? ?]; congruence]).
Qed.

(** C7, amended: [trim_tickerlist] raises its [ValueError] exactly when the
    list is not empty and the start index of the range is beyond its stop
    index, both as the range resolves on that list; the message then holds
    the range's own [startts] and [stopts], which are not in general the two
    indices.  The empty list is returned as it is for every range. *)
Theorem trim_tickerlist_raises_iff :
  (∀ timerange, trim_tickerlist [] timerange = Ok []) ∧
  (∀ tickerlist timerange msg,
     trim_tickerlist tickerlist timerange = Raise (ValueError msg) ↔
     tickerlist ≠ [] ∧
     (∃ start_index stop_index,
        resolved_start_index tickerlist timerange start_index ∧
        resolved_stop_index tickerlist timerange stop_index ∧
        stop_index < start_index) ∧
     msg = "The timerange [" +:+ str_of_int (startts timerange) +:+ ","
             +:+ str_of_int (stopts timerange) +:+ "] is incorrect").
Proof.
  split; [done|]. intros l tr msg.
  destruct l as [|r l]; simpl.
  { split; [done|]. by intros [? _]. }
  destruct (resolve_indices (r :: l) tr) as [[i j]|e] eqn:E; simpl.
  - apply resolve_indices_spec in E as HE. destruct (Z.ltb_spec j i).
    + split.
      * intros [= <-]. split; [done|]. split; [|done]. exists i, j. tauto.
      * intros (_ & _ & ->). done.
    + split; [done|]. intros (_ & (i' & j' & Hi & Hj & ?) & _).
      assert (resolve_indices (r :: l) tr = Ok (i', j')) as E'
        by (apply resolve_indices_spec; tauto).
      rewrite E in E'. injection E' as <- <-. lia.
  - apply resolve_indices_raises in E as HE. subst e.
    split; [done|]. intros (_ & (i' & j' & Hi & Hj & _) & _).
    assert (resolve_indices (r :: l) tr = Ok (i', j')) as E'
      by (apply resolve_indices_spec; tauto).
    congruence.
Qed.

Example trim_tickerlist_message :
  trim_tickerlist (rows [1000; 2000; 3000; 4000])
    (mkTimeRange (Some "index") (Some "index") 5 (-7))
  = Raise (ValueError "The timerange [5,-7] is incorrect").
Proof. reflexivity. Qed.

(** C7 as worded has the two compared bounds in the message.  Rows 1000 to
    4000 under a ['date'] range from 5 s to 3 s: the start index resolves to
    4 and the stop index to 3, and the message reads [5,3], the two values
    of the range. *)
Lemma trim_tickerlist_message_date :
  let tickerlist := rows [1000; 2000; 3000; 4000] in
  let timerange := mkTimeRange (Some "date") (Some "date") 5 3 in
  resolved_start_index tickerlist timerange 4 ∧
  resolved_stop_index tickerlist timerange 3 ∧
  trim_tickerlist tickerlist timerange
  = Raise (ValueError "The timerange [5,3] is incorrect").
Proof.
  intros tickerlist timerange.
  assert (resolve_indices tickerlist timerange = Ok (4, 3)) as H by reflexivity.
  apply resolve_indices_spec in H as [Hstart Hstop].
  split; [exact Hstart|]. split; [exact Hstop|]. reflexivity.
Qed.

(** In an ascending series every row from the one the scan stopped at is at
    or above the bound. *)
Lemma ascending_drop_bound tickerlist bound (n : nat) :
  ascending tickerlist →
  (∀ r, tickerlist !! n = Some r → bound ≤ timestamp_ms r) →
  ∀ r, r ∈ drop n tickerlist → bound ≤ timestamp_ms r.
Proof.
  intros Hasc Hat r Hr.
  apply Sorted_StronglySorted in Hasc; [|apply _].
  rewrite <-(take_drop n tickerlist) in Hasc.
  apply StronglySorted_app_1_r in Hasc.
  destruct (drop n tickerlist) as [|r0 l] eqn:E; [by apply elem_of_nil in Hr|].
  assert (tickerlist !! n = Some r0) as H0.
  { rewrite <-(Nat.add_0_r n), <-lookup_drop, E. done. }
  apply Hat in H0.
  apply elem_of_cons in Hr as [->|Hr]; [done|].
  apply StronglySorted_cons in Hasc as [Hall _].
  rewrite Forall_forall in Hall. specialize (Hall _ Hr).
  unfold by_timestamp in Hall. lia.
Qed.

(** Unless the stop is a ['line'], the start index is the one the start side
    chose. *)
Lemma resolve_indices_start tickerlist timerange start_index stop_index :
  stoptype timerange ≠ Some "line" →
  resolve_indices tickerlist timerange = Ok (start_index, stop_index) →
  start_index = fst (start_side tickerlist timerange).
Proof.
  intros Hline%is_type_false. unfold resolve_indices, stop_side.
  destruct (start_side tickerlist timerange) as [i j]; simpl.
  rewrite Hline.
  destruct (is_type (stoptype timerange) "index"); [congruence|].
  destruct (is_type (stoptype timerange) "date"); [|congruence].
  destruct (scan_stop _ _ _); simpl; congruence.
Qed.

(** C5: for an ascending series and a range whose start is a ['date'] [t0]
    (and whose stop is not a ['line'], which would replace the start index),
    the rows [trim_tickerlist] returns sit in the series right after the
    first [start_index] rows, all of them have a timestamp of at least
    [t0 * 1000], and the row just before them, if there is one, has a
    timestamp below [t0 * 1000].  With no stop at all the call returns. *)
Theorem trim_tickerlist_date_start (tickerlist : list candle)
    (timerange : TimeRange) :
  starttype timerange = Some "date" →
  stoptype timerange ≠ Some "line" →
  ascending tickerlist →
  (stoptype timerange = None → ∃ out, trim_tickerlist tickerlist timerange = Ok out) ∧
  (∀ out, trim_tickerlist tickerlist timerange = Ok out →
     ∃ before after,
       tickerlist = before ++ out ++ after ∧
       len before = fst (start_side tickerlist timerange) ∧
       (∀ r, r ∈ out → startts timerange * 1000 ≤ timestamp_ms r) ∧
       (∀ r, last before = Some r → timestamp_ms r < startts timerange * 1000)).
Proof.
  intros Hdate Hline Hasc.
  destruct (scan_start_spec tickerlist (startts timerange * 1000) 0)
    as (n & Hscan & Hn & Hbelow & Hat).
  assert (start_side tickerlist timerange
          = (Z.of_nat n, len tickerlist)) as Hstart.
  { unfold start_side. rewrite Hdate; simpl. rewrite Hscan. f_equal. }
  split.
  - intros Hnone. destruct tickerlist as [|r l]; [by exists []|].
    unfold trim_tickerlist, resolve_indices, stop_side.
    rewrite Hstart, Hnone; simpl.
    destruct (Z.ltb_spec (len (r :: l)) (Z.of_nat n)); [unfold len in *; lia|].
    by eexists.
  - intros out Hout.
    destruct tickerlist as [|r l].
    { injection Hout as <-. exists [], []. rewrite Hstart. simpl in *.
      split; [done|]. split; [unfold len; simpl; lia|].
      split; [|done]. intros r. by rewrite elem_of_nil. }
    unfold trim_tickerlist in Hout.
    destruct (resolve_indices (r :: l) timerange) as [[i j]|e] eqn:E;
      simpl in Hout; [|done].
    apply resolve_indices_start in E as Hi; [|done].
    rewrite Hstart in Hi; simpl in Hi. subst i.
    destruct (Z.ltb_spec j (Z.of_nat n)); [done|].
    injection Hout as <-.
    exists (take n (r :: l)), (drop (Z.to_nat j) (r :: l)).
    split; [|split; [|split]].
    + pose proof (py_slice_split (r :: l) (Z.of_nat n) j) as Hsplit.
      rewrite Nat2Z.id in Hsplit. apply Hsplit; lia.
    + rewrite Hstart. unfold len. by rewrite length_take_le.
    + intros r' Hr'. rewrite py_slice_nonneg in Hr' by lia.
      rewrite Nat2Z.id in Hr'.
      eapply ascending_drop_bound; [done..|].
      eapply elem_of_take in Hr' as (k & Hk & _).
      by eapply list_elem_of_lookup_2.
    + intros r' Hr'. apply Hbelow. rewrite last_lookup in Hr'.
      by eapply list_elem_of_lookup_2.
Qed.

(** Rows 1000 .. 5000 under a ['date'] range from 3 s to 4 s. *)
Lemma trim_tickerlist_date_start_witness :
  let tickerlist := rows [1000; 2000; 3000; 4000; 5000] in
  trim_tickerlist tickerlist sample_range = Ok (rows [3000; 4000]) ∧
  ∃ before after,
    tickerlist = before ++ rows [3000; 4000] ++ after ∧
    len before = 2 ∧
    (∀ r, r ∈ rows [3000; 4000] → 3000 ≤ timestamp_ms r) ∧
    (∀ r, last before = Some r → timestamp_ms r < 3000).
Proof.
  intros tickerlist. split; [reflexivity|].
  destruct (trim_tickerlist_date_start tickerlist sample_range) as [_ H].
  - reflexivity.
  - discriminate.
  - repeat constructor; unfold by_timestamp; simpl; lia.
  - exact (H _ eq_refl).
Defined.

(** ** load_cached_data_for_updating *)

Lemma removelast_snoc2 {A} (l : list A) (x y : A) :
  removelast (l ++ [x; y]) = l ++ [x].
Proof.
  replace (l ++ [x; y]) with ((l ++ [x]) ++ [y]) by by rewrite <-app_assoc.
  apply removelast_last.
Qed.

(** When the range asks for no start, nothing is requested. *)
Lemma requested_since_None env tick_interval timerange :
  (timerange = None ∨
   ∃ tr, timerange = Some tr ∧ starttype tr ≠ Some "date" ∧
         stoptype tr ≠ Some "line") →
  requested_since env tick_interval timerange = Ok None.
Proof.
  intros [->|(tr & -> & Hs%is_type_false & Hl%is_type_false)]; [done|].
  unfold requested_since. by rewrite Hs, Hl.
Qed.

(** C1, for a cache of at least two rows: when the range requests no start,
    the last cached row is dropped, the rows before it are returned, and
    [since_ms] is one millisecond after the last row that is kept. *)
Theorem load_cached_drops_last (env : Env) (fs : gmap string file_content)
    (filename tick_interval : string) (timerange : option TimeRange)
    (kept : list candle) (prev dropped : candle) :
  fs !! filename = Some (Series (kept ++ [prev; dropped])) →
  requested_since env tick_interval timerange = Ok None →
  load_cached_data_for_updating env fs filename tick_interval timerange
  = Ok (kept ++ [prev], Some (timestamp_ms prev + 1)).
Proof.
  intros Hfile Hsince. unfold load_cached_data_for_updating, read_cache.
  rewrite Hsince, Hfile; simpl. rewrite removelast_snoc2.
  destruct (kept ++ [prev]) as [|first rest] eqn:E.
  { by destruct kept. }
  simpl. by rewrite <-E, last_snoc.
Qed.

Lemma load_cached_drops_last_witness :
  load_cached_data_for_updating sample_env
    {[ "cache.json" := Series (rows [1000; 2000; 3000]) ]} "cache.json" "5m" None
  = Ok (rows [1000; 2000], Some 2001).
Proof.
  apply (load_cached_drops_last sample_env _ "cache.json" "5m" None
           (rows [1000]) (row 2000) (row 3000)); reflexivity.
Defined.

(** C1 as worded includes a cache of one row: that row is dropped, nothing
    is left to resume after, and [since_ms] stays [None]. *)
Lemma load_cached_single_row :
  (1 ≤ length (rows [1000%Z]))%nat ∧
  requested_since sample_env "5m" None = Ok None ∧
  load_cached_data_for_updating sample_env
    {[ "cache.json" := Series (rows [1000]) ]} "cache.json" "5m" None
  = Ok ([], None).
Proof. split; [simpl; lia|]. split; reflexivity. Qed.

(** C10: whenever rows are returned, [since_ms] is one millisecond after the
    last of them, whatever the range asked for. *)
Theorem load_cached_resumes_after_last (env : Env)
    (fs : gmap string file_content) (filename tick_interval : string)
    (timerange : option TimeRange) (data : list candle) (since_ms : option Z) :
  load_cached_data_for_updating env fs filename tick_interval timerange
  = Ok (data, since_ms) →
  data ≠ [] →
  ∃ r, last data = Some r ∧ since_ms = Some (timestamp_ms r + 1).
Proof.
  unfold load_cached_data_for_updating.
  destruct (requested_since env tick_interval timerange) as [since|]; [|done].
  destruct (read_cache fs filename) as [[|first rest]|]; simpl; [congruence| |done].
  destruct (requested_before since first); [congruence|].
  destruct (last (first :: rest)) as [r|] eqn:E; [|done].
  intros [= <- <-] _. by exists r.
Qed.

(** A later start than the cache holds: the cache is kept and the request
    is replaced. *)
Lemma load_cached_resumes_after_last_witness :
  ∃ r, last (rows [1000; 2000]) = Some r ∧
       Some 2001 = Some (timestamp_ms r + 1).
Proof.
  apply (load_cached_resumes_after_last sample_env
           {[ "cache.json" := Series (rows [1000; 2000; 3000]) ]}
           "cache.json" "5m" (Some (mkTimeRange (Some "date") None 9 0))).
  - reflexivity.
  - discriminate.
Defined.

(** What the code does when the requested start is not 0 and lies before the
    first row it kept: nothing of the cache is returned and the request
    stands. *)
Lemma load_cached_full_refetch env fs filename tick_interval timerange
    since first rest :
  requested_since env tick_interval timerange = Ok (Some since) →
  read_cache fs filename = Ok (first :: rest) →
  since ≠ 0 →
  since < timestamp_ms first →
  load_cached_data_for_updating env fs filename tick_interval timerange
  = Ok ([], Some since).
Proof.
  intros Hsince Hcache Hnz Hlt. unfold load_cached_data_for_updating.
  rewrite Hsince, Hcache; simpl.
  destruct (Z.eqb_spec since 0); [done|].
  by destruct (Z.ltb_spec since (timestamp_ms first)); [|lia].
Qed.

(** C3 at a requested start of 0 ([TimeRange('date', None, 0, 0)]) and a
    cache of rows 1000, 2000, 3000: the request is before the first cached
    row, yet the test [since_ms and ...] reads 0 as no request, so the
    trimmed cache is kept and [since_ms] becomes 2001. *)
Theorem load_cached_since_zero :
  let timerange := Some (mkTimeRange (Some "date") None 0 0) in
  let fs : gmap string file_content :=
    {[ "cache.json" := Series (rows [1000; 2000; 3000]) ]} in
  requested_since sample_env "5m" timerange = Ok (Some 0) ∧
  read_cache fs "cache.json" = Ok (rows [1000; 2000]) ∧
  load_cached_data_for_updating sample_env fs "cache.json" "5m" timerange
  = Ok (rows [1000; 2000], Some 2001).
Proof. repeat split. Qed.

(** C4 as worded fails on a ['line'] stop: with no cache file and
    [TimeRange(None, 'line', 0, -5)] on 5-minute candles, [since_ms] is 25
    minutes before the clock, not [None]. *)
Lemma load_cached_without_file_line_stop :
  let tr := mkTimeRange None (Some "line") 0 (-5) in
  starttype tr ≠ Some "date" ∧
  load_cached_data_for_updating sample_env ∅ "cache.json" "5m" (Some tr)
  = Ok ([], Some 1699998500000).
Proof. split; [discriminate|reflexivity]. Qed.

(** C4, amended: with no cache file the result is the empty series and a
    [since_ms] that depends on the range, the clock and the interval table
    only: a ['date'] start gives its timestamp in milliseconds; otherwise a
    ['line'] stop gives the clock moved by [stopts] candles of the interval,
    as long as the interval is in [TICKER_INTERVAL_MINUTES] (else [KeyError])
    and the moved clock is a date of the years 1 to 9999 (else
    [OverflowError]); every other range, and no range at all, gives
    [None]. *)
Theorem load_cached_without_file (env : Env) (fs : gmap string file_content)
    (filename tick_interval : string) (timerange : option TimeRange) :
  fs !! filename = None →
  let result := load_cached_data_for_updating env fs filename tick_interval
                  timerange in
  (timerange = None → result = Ok ([], None)) ∧
  (∀ tr, timerange = Some tr → starttype tr = Some "date" →
     result = Ok ([], Some (startts tr * 1000))) ∧
  (∀ tr mins, timerange = Some tr → starttype tr ≠ Some "date" →
     stoptype tr = Some "line" →
     TICKER_INTERVAL_MINUTES env !! tick_interval = Some mins →
     let moved := utcnow env + stopts tr * mins * 60 in
     (datetime_min_s ≤ moved ≤ datetime_max_s →
      result = Ok ([], Some (moved * 1000))) ∧
     (¬ (datetime_min_s ≤ moved ≤ datetime_max_s) →
      result = Raise OverflowError)) ∧
  (∀ tr, timerange = Some tr → starttype tr ≠ Some "date" →
     stoptype tr = Some "line" →
     TICKER_INTERVAL_MINUTES env !! tick_interval = None →
     result = Raise (KeyError tick_interval)) ∧
  (∀ tr, timerange = Some tr → starttype tr ≠ Some "date" →
     stoptype tr ≠ Some "line" →
     result = Ok ([], None)).
Proof.
  intros Hfile result. subst result.
  unfold load_cached_data_for_updating, read_cache. rewrite Hfile.
  split; [by intros ->|]. split; [|split; [|split]].
  - intros tr -> Hd%is_type_true. simpl. by rewrite Hd.
  - intros tr mins -> Hd%is_type_false Hl%is_type_true Hmins. simpl.
    rewrite Hd, Hl, Hmins. unfold shifted_timestamp.
    destruct (Z.leb_spec datetime_min_s (utcnow env + stopts tr * mins * 60));
      destruct (Z.leb_spec (utcnow env + stopts tr * mins * 60) datetime_max_s);
      simpl; (split; [intros ?|intros Hout]); try done; try lia;
      exfalso; apply Hout; lia.
  - intros tr -> Hd%is_type_false Hl%is_type_true Hmins. simpl.
    by rewrite Hd, Hl, Hmins.
  - intros tr -> Hd%is_type_false Hl%is_type_false. simpl.
    by rewrite Hd, Hl.
Qed.

Lemma load_cached_without_file_witness :
  load_cached_data_for_updating sample_env ∅ "cache.json" "5m"
    (Some (mkTimeRange (Some "date") None 1600000000 0))
  = Ok ([], Some 1600000000000) ∧
  load_cached_data_for_updating sample_env ∅ "cache.json" "5m"
    (Some (mkTimeRange None (Some "line") 0 (-5)))
  = Ok ([], Some 1699998500000) ∧
  load_cached_data_for_updating sample_env ∅ "cache.json" "5m"
    (Some (mkTimeRange None (Some "line") 0 (-10000000000)))
  = Raise OverflowError ∧
  load_cached_data_for_updating sample_env ∅ "cache.json" "5m"
    (Some (mkTimeRange (Some "index") (Some "index") 2 7))
  = Ok ([], None).
Proof.
  pose proof (load_cached_without_file sample_env ∅ "cache.json" "5m") as H.
  split; [|split; [|split]].
  - destruct (H (Some (mkTimeRange (Some "date") None 1600000000 0)) eq_refl)
      as (_ & Hdate & _).
    exact (Hdate _ eq_refl eq_refl).
  - destruct (H (Some (mkTimeRange None (Some "line") 0 (-5))) eq_refl)
      as (_ & _ & Hline & _).
    destruct (Hline _ 5 eq_refl ltac:(discriminate) eq_refl eq_refl) as [Hin _].
    apply Hin. unfold datetime_min_s, datetime_max_s. simpl. lia.
  - destruct (H (Some (mkTimeRange None (Some "line") 0 (-10000000000))) eq_refl)
      as (_ & _ & Hline & _).
    destruct (Hline _ 5 eq_refl ltac:(discriminate) eq_refl eq_refl) as [_ Hout].
    apply Hout. unfold datetime_min_s, datetime_max_s. simpl. lia.
  - destruct (H (Some (mkTimeRange (Some "index") (Some "index") 2 7)) eq_refl)
      as (_ & _ & _ & _ & Hnone).
    refine (Hnone _ eq_refl _ _); discriminate.
Defined.

(** ** validate_backtest_data *)

(** *** The float of [total_seconds()] against exact arithmetic *)

Lemma div_between (a b q : Z) : 0 < b → b * q ≤ a < b * (q + 1) → a / b = q.
Proof.
  intros Hb [Hlo Hhi]. symmetry. apply (Z.div_unique a b q (a - b * q)); lia.
Qed.

(** One rounding step: [a] lies in the cell [[U * m0, U * (m0 + 1))] and [m]
    is the nearer end.  A multiple [U * t] of the unit is not crossed, and a
    distance of [g], more than half a unit, keeps [m] strictly apart. *)
Lemma rounding_step (a U m0 rem m t g : Z) :
  0 < U → a = U * m0 + rem → 0 ≤ rem < U →
  (m = m0 + 1 ∧ U ≤ 2 * rem) ∨ (m = m0 ∧ 2 * rem ≤ U) →
  U < 2 * g →
  (U * t ≤ a → t ≤ m) ∧
  (a ≤ U * t - g → m < t) ∧
  (a ≤ U * t → m ≤ t) ∧
  (U * t + g ≤ a → t < m).
Proof.
  intros HU Ha Hrem Hm Hg. repeat split; intros H; nia.
Qed.

(** For less than [2 ^ 34] seconds, rounding the seconds to a float keeps
    them on their side of every whole number of seconds. *)
Lemma nearest_float_scaled_order (n j : Z) :
  0 < n < 2 ^ 34 * 1000000 →
  (j * 1000000 ≤ n → j * 2 ^ 73 ≤ nearest_float_scaled n 1000000) ∧
  (n ≤ j * 1000000 - 1 → nearest_float_scaled n 1000000 < j * 2 ^ 73) ∧
  (n ≤ j * 1000000 → nearest_float_scaled n 1000000 ≤ j * 2 ^ 73) ∧
  (j * 1000000 + 1 ≤ n → j * 2 ^ 73 < nearest_float_scaled n 1000000).
Proof.
  intros Hn. unfold nearest_float_scaled.
  change (ratio_scale 1000000) with 73.
  set (a := n * 2 ^ 73).
  set (shift := Z.log2 (a / 1000000) - 52).
  assert (2 ^ 53 ≤ a / 1000000 < 2 ^ 107) as Hq.
  { subst a. split.
    - apply Z.div_le_lower_bound; [lia|].
      change (2 ^ 53) with 9007199254740992.
      change (2 ^ 73) with 9444732965739290427392. lia.
    - apply Z.div_lt_upper_bound; [lia|].
      change (2 ^ 107) with (2 ^ 34 * 2 ^ 73).
      change (2 ^ 73) with 9444732965739290427392 in *.
      change (2 ^ 34) with 17179869184 in *. lia. }
  assert (1 ≤ shift ≤ 54) as Hshift.
  { subst shift.
    assert (0 < a / 1000000) as Hpos.
    { change (2 ^ 53) with 9007199254740992 in Hq. lia. }
    destruct Hq as [Hlo Hhi].
    apply Z.log2_le_pow2 in Hlo; [|done].
    apply Z.log2_lt_pow2 in Hhi; [|done]. lia. }
  clearbody shift. clear Hq.
  set (S := 2 ^ shift). set (C := 2 ^ (73 - shift)).
  assert (S * C = 2 ^ 73) as HSC.
  { subst S C. rewrite <-Z.pow_add_r by lia. f_equal. lia. }
  assert (2 ≤ S ≤ 2 ^ 54) as HS.
  { subst S. split.
    - change 2 with (2 ^ 1) at 1. apply Z.pow_le_mono_r; lia.
    - apply Z.pow_le_mono_r; lia. }
  assert (0 < C) as HC by (subst C; apply Z.pow_pos_nonneg; lia).
  set (U := 1000000 * S).
  assert (0 < U) as HU by lia.
  pose proof (Z.div_mod a U ltac:(lia)) as Hdiv.
  pose proof (Z.mod_pos_bound a U HU) as Hrem.
  set (m0 := a / U) in *. set (rem := a mod U) in *.
  match goal with
  | |- context [if ?c then m0 + 1 else m0] => set (m := if c then m0 + 1 else m0)
  end.
  assert ((m = m0 + 1 ∧ U ≤ 2 * rem) ∨ (m = m0 ∧ 2 * rem ≤ U)) as Hm.
  { subst m. destruct (Z.ltb_spec U (2 * rem)); simpl; [left; lia|].
    destruct (Z.eqb_spec U (2 * rem)); simpl; [|right; lia].
    destruct (Z.odd m0); [left; lia|right; lia]. }
  clearbody m.
  assert (U < 2 * 2 ^ 73) as Hg.
  { subst U. change (2 ^ 54) with 18014398509481984 in HS.
    change (2 ^ 73) with 9444732965739290427392. lia. }
  destruct (rounding_step a U m0 rem m (j * C) (2 ^ 73) HU Hdiv Hrem Hm Hg)
    as (H1 & H2 & H3 & H4).
  assert (U * (j * C) = j * 1000000 * 2 ^ 73) as HUt by (subst U; nia).
  assert (j * 2 ^ 73 = j * C * S) as Hj by nia.
  rewrite HUt in H1, H2, H3, H4. rewrite Hj. subst a.
  assert (0 < 2 ^ 73) as Hp by (change (2 ^ 73) with 9444732965739290427392; lia).
  repeat split; intros H.
  - assert (j * C ≤ m) by (apply H1; nia). nia.
  - assert (m < j * C) by (apply H2; nia). nia.
  - assert (m ≤ j * C) by (apply H3; nia). nia.
  - assert (j * C < m) by (apply H4; nia). nia.
Qed.

(** The whole minutes of a difference below [2 ^ 34] seconds (about 544
    years) are those of exact arithmetic. *)
Lemma whole_minutes_exact (us : Z) :
  Z.abs us < 2 ^ 34 * 1000000 → whole_minutes us = us / 60000000.
Proof.
  intros Hus. unfold whole_minutes, total_seconds_scaled.
  change (ratio_scale 1000000) with 73.
  assert (0 < 2 ^ 73) as Hp by (change (2 ^ 73) with 9444732965739290427392; lia).
  pose proof (Z.div_mod us 60000000 ltac:(lia)) as Hdiv.
  pose proof (Z.mod_pos_bound us 60000000 ltac:(lia)) as Hmod.
  set (k := us / 60000000) in *.
  destruct (Z.eqb_spec us 0) as [->|Hnz].
  { subst k. reflexivity. }
  apply div_between; [lia|].
  destruct (Z.lt_trichotomy us 0) as [Hneg|[?|Hpos]]; [|done|].
  - rewrite Z.sgn_neg, Z.abs_neq by lia.
    destruct (nearest_float_scaled_order (- us) (- (60 * k)) ltac:(lia))
      as (_ & _ & H3 & _).
    destruct (nearest_float_scaled_order (- us) (- (60 * (k + 1))) ltac:(lia))
      as (_ & _ & _ & H4).
    specialize (H3 ltac:(lia)). specialize (H4 ltac:(lia)). lia.
  - rewrite Z.sgn_pos, Z.abs_eq by lia.
    destruct (nearest_float_scaled_order us (60 * k) ltac:(lia))
      as (H1 & _).
    destruct (nearest_float_scaled_order us (60 * (k + 1)) ltac:(lia))
      as (_ & H2 & _).
    specialize (H1 ltac:(lia)). specialize (H2 ltac:(lia)). lia.
Qed.

(** An integer of at most 53 bits converts to itself. *)
Lemma float_of_int_exact (n : Z) : Z.abs n < 2 ^ 53 → float_of_int n = Ok n.
Proof.
  intros Hn. unfold float_of_int.
  destruct (Z.eqb_spec n 0) as [->|Hnz]; [done|].
  assert (nearest_float_scaled (Z.abs n) 1 = Z.abs n * 2 ^ 54) as ->.
  { unfold nearest_float_scaled. change (ratio_scale 1) with 54.
    set (b := Z.abs n) in *. assert (0 < b) as Hb by lia.
    rewrite Z.div_1_r, Z.log2_mul_pow2 by lia.
    set (l := Z.log2 b).
    assert (0 ≤ l ≤ 52) as Hl.
    { subst l. split; [apply Z.log2_nonneg|].
      assert (Z.log2 b < 53); [|lia]. by apply Z.log2_lt_pow2. }
    replace (54 + l - 52) with (l + 2) by lia.
    assert (b * 2 ^ 54 = (b * 2 ^ (52 - l)) * 2 ^ (l + 2)) as Hsplit.
    { rewrite <-Z.mul_assoc, <-Z.pow_add_r by lia. do 2 f_equal. lia. }
    assert (0 < 2 ^ (l + 2)) as Hpos by (apply Z.pow_pos_nonneg; lia).
    rewrite Z.mul_1_l, Hsplit, Z.div_mul, Z_mod_mult by lia.
    destruct (Z.ltb_spec (2 ^ (l + 2)) (2 * 0)); [lia|].
    by destruct (Z.eqb_spec (2 ^ (l + 2)) (2 * 0)); [lia|]. }
  change (ratio_scale 1) with 54.
  rewrite Z.div_mul by (change (2 ^ 54) with 18014398509481984; lia).
  destruct (Z.leb_spec (2 ^ 1024) (Z.abs n)) as [Hbig|_].
  { assert (2 ^ 53 ≤ 2 ^ 1024) by (apply Z.pow_le_mono_r; lia). lia. }
  f_equal. lia.
Qed.

(** On spans below [2 ^ 34] seconds and intervals other than 0 of at most 53
    bits, the expected count is the exact quotient, rounded down twice. *)
Lemma expected_frames_of_exact (min_date max_date ticker_interval_mins : Z) :
  ticker_interval_mins ≠ 0 →
  Z.abs ticker_interval_mins < 2 ^ 53 →
  Z.abs (max_date - min_date) < 2 ^ 34 * 1000000 →
  expected_frames_of min_date max_date ticker_interval_mins
  = Ok ((max_date - min_date) / 60000000 / ticker_interval_mins).
Proof.
  intros Hnz Hint Hspan. unfold expected_frames_of.
  rewrite float_of_int_exact by done. simpl.
  destruct (Z.eqb_spec ticker_interval_mins 0); [done|].
  by rewrite whole_minutes_exact.
Qed.

(** *** The loop *)





(** An interval of 0 makes the division raise before any frame is looked
    at. *)
Lemma validate_backtest_data_zero_interval data min_date max_date w :
  validate_backtest_data data min_date max_date 0 w = (w, Raise ZeroDivisionError).
Proof. done. Qed.

Example validate_backtest_data_warns :
  validate_backtest_data
    [("ETH/BTC", rows [0; 300000]); ("LTC/BTC", rows [0; 300000; 600000])]
    0 900000000 5 (World ∅ [])
  = (World ∅ [Warning_missing_frames "ETH/BTC" 3 2 1], Ok true).
Proof. reflexivity. Qed.

(** ** download_pairs *)

(** A download that raises has not written its file: the write is the last
    step. *)
Lemma download_backtesting_testdata_raise env datadir exchange pair_
    tick_interval timerange w w' e :
  download_backtesting_testdata env datadir exchange pair_ tick_interval
    timerange w = (w', Raise e) →
  files w' = files w.
Proof.
  unfold download_backtesting_testdata, mbind, M_bind, log, read_files, lift,
    file_dump_json; simpl.
  intros H. repeat (case_match; simplify_eq; simpl in * ); done.
Qed.

(** The loop over a concatenation: the second part runs only if the first
    went through. *)
Lemma download_pairs_app env datadir exchange before after ticker_interval
    timerange w :
  download_pairs env datadir exchange (before ++ after) ticker_interval timerange w
  = let '(w1, ok) := download_pairs env datadir exchange before ticker_interval
                       timerange w in
    if ok then download_pairs env datadir exchange after ticker_interval timerange w1
    else (w1, false).
Proof.
  revert w. induction before as [|p before IH]; intros w; simpl; [done|].
  destruct (download_backtesting_testdata _ _ _ _ _ _ _) as [w' [[]|e]]; [|done].
  apply IH.
Qed.

(** C2 as worded fails: the exchange refuses the first pair, the second pair
    would download on its own, yet the call returns [False] after the first
    one, never starts the second and leaves it without a file. *)
Lemma download_pairs_aborts_batch :
  let w0 := World ∅ [] in
  download_pairs sample_env "" sample_exchange ["ETH/BTC"; "LTC/BTC"] "5m" None w0
  = (World ∅ [Info_download_pair "ETH/BTC" "5m"; Debug_current_start None;
              Debug_current_end None; Info_failed_download "ETH/BTC" "5m"],
     false) ∧
  (download_backtesting_testdata sample_env "" sample_exchange "LTC/BTC" "5m"
     None w0).2 = Ok () ∧
  files (download_backtesting_testdata sample_env "" sample_exchange "LTC/BTC"
           "5m" None w0).1 !! "/freqtrade/tests/testdata/LTC_BTC-5m.json"
  = Some (Series (rows [1697408000000; 1697408300000])).
Proof. repeat split. Qed.

(** C2, amended: a failure of one pair is caught in the loop and logged, and
    the loop ends there with [False]: the pairs before it have been
    downloaded, the failing pair has written nothing, and the pairs after it
    are not touched. *)
Theorem download_pairs_stops_at_failure (env : Env) (datadir : string)
    (exchange : Exchange) (before : list string) (pair_ : string)
    (after : list string) (ticker_interval : string)
    (timerange : option TimeRange) (w w1 w2 : world) (e : exn) :
  download_pairs env datadir exchange before ticker_interval timerange w
  = (w1, true) →
  download_backtesting_testdata env datadir exchange pair_ ticker_interval
    timerange w1 = (w2, Raise e) →
  download_pairs env datadir exchange (before ++ pair_ :: after) ticker_interval
    timerange w
  = (World (files w1) (logged w2 ++ [Info_failed_download pair_ ticker_interval]),
     false).
Proof.
  intros Hbefore Hfail. rewrite download_pairs_app, Hbefore. simpl.
  rewrite Hfail. by rewrite (download_backtesting_testdata_raise _ _ _ _ _ _ _ _ _ Hfail).
Qed.

Lemma download_pairs_stops_at_failure_witness :
  ∃ w1 w2,
    download_pairs sample_env "" sample_exchange ["LTC/BTC"] "5m" None (World ∅ [])
    = (w1, true) ∧
    files w1 !! "/freqtrade/tests/testdata/LTC_BTC-5m.json"
    = Some (Series (rows [1697408000000; 1697408300000])) ∧
    download_pairs sample_env "" sample_exchange ["LTC/BTC"; "ETH/BTC"; "XRP/BTC"]
      "5m" None (World ∅ [])
    = (World (files w1) (logged w2 ++ [Info_failed_download "ETH/BTC" "5m"]), false).
Proof.
  eexists _, _. split; [reflexivity|]. split; [reflexivity|].
  apply (download_pairs_stops_at_failure sample_env "" sample_exchange
           ["LTC/BTC"] "ETH/BTC" ["XRP/BTC"] "5m" None (World ∅ []) _ _
           ExchangeError); reflexivity.
Defined.


(** * Further properties *)

(** ** trim_tickerlist: what comes back *)

(** Any slice is a run of consecutive elements of the list. *)
Lemma py_slice_infix {A} (l : list A) i j :
  ∃ before after, l = before ++ py_slice l i j ++ after.
Proof.
  unfold py_slice.
  set (s := Z.to_nat (slice_bound (len l) i)).
  set (n := Z.to_nat (slice_bound (len l) j - slice_bound (len l) i)).
  exists (take s l), (drop n (drop s l)).
  by rewrite take_drop, take_drop.
Qed.

(** With a stop that is not negative, a slice stays below that stop. *)
Lemma py_slice_below {A} (l : list A) i j x :
  0 ≤ j → x ∈ py_slice l i j → x ∈ take (Z.to_nat j) l.
Proof.
  intros Hj. unfold py_slice, slice_bound, len.
  destruct (Z.ltb_spec j 0); [lia|].
  destruct (Z.ltb_spec i 0);
    intros (k & Hk & Hlt)%elem_of_take;
    rewrite lookup_drop in Hk;
    apply elem_of_take; eexists; (split; [done|]);
    apply lookup_lt_Some in Hk; lia.
Qed.

Lemma ascending_lookup_le l (i j : nat) a b :
  ascending l → (i ≤ j)%nat → l !! i = Some a → l !! j = Some b →
  timestamp_ms a ≤ timestamp_ms b.
Proof.
  intros Hasc%Sorted_StronglySorted; [|apply _].
  revert i j. induction Hasc as [|x l Hs IH Hall]; intros i j Hij Ha Hb.
  { by rewrite lookup_nil in Ha. }
  destruct i as [|i], j as [|j]; simpl in *; simplify_eq; try lia.
  - rewrite Forall_forall in Hall.
    apply list_elem_of_lookup_2 in Hb. by apply Hall in Hb.
  - eapply IH; [|done..]. lia.
Qed.

(** X1: whatever the range, the rows [trim_tickerlist] returns are a run of
    consecutive rows of its input, in their order: nothing is added, dropped
    from the middle, or moved. *)
Theorem trim_tickerlist_contiguous (tickerlist : list candle)
    (timerange : TimeRange) (out : list candle) :
  trim_tickerlist tickerlist timerange = Ok out →
  ∃ before after, tickerlist = before ++ out ++ after.
Proof.
  destruct tickerlist as [|r l]; simpl.
  { intros [= <-]. by exists [], []. }
  destruct (resolve_indices (r :: l) timerange) as [[i j]|e]; simpl; [|done].
  destruct (j <? i); [done|]. intros [= <-]. apply py_slice_infix.
Qed.

Lemma trim_tickerlist_contiguous_witness :
  ∃ before after,
    rows [1000; 2000; 3000; 4000; 5000] = before ++ rows [3000; 4000] ++ after.
Proof.
  apply (trim_tickerlist_contiguous (rows [1000; 2000; 3000; 4000; 5000])
           sample_range).
  reflexivity.
Defined.

(** The backward scan fails exactly when it is started beyond the list. *)
Lemma scan_stop_raise_iff l bound j :
  (∃ e, scan_stop l bound j = Raise e) ↔ len l < j.
Proof.
  unfold scan_stop. pose proof (len_nonneg l).
  destruct (Z.ltb_spec 0 j).
  - destruct (decide (len l < j)) as [Hout|Hin].
    + rewrite scan_stop_from_out_of_range by (unfold len in *; lia).
      split; [done|]. by eexists.
    + destruct (scan_stop_from_in_range l bound (Z.to_nat j)) as [m ->];
        [unfold len in *; lia|].
      split; [by intros [? ?]|done].
  - split; [by intros [? ?]|lia].
Qed.

Lemma resolve_indices_raise_iff tickerlist timerange :
  (∃ e, resolve_indices tickerlist timerange = Raise e) ↔
  starttype timerange = Some "line" ∧ stoptype timerange = Some "date" ∧
  len tickerlist < startts timerange.
Proof.
  unfold resolve_indices, stop_side, start_side.
  destruct (is_type (stoptype timerange) "index") eqn:Hindex.
  { apply is_type_true in Hindex.
    split; [by intros [? ?]|]. intros (_ & ? & _). congruence. }
  destruct (is_type (stoptype timerange) "date") eqn:Hdate.
  2:{ apply is_type_false in Hdate.
      split; [by intros [? ?]|]. intros (_ & ? & _). congruence. }
  apply is_type_true in Hdate.
  set (start_index := if is_type (stoptype timerange) "line" then _ else _).
  destruct (is_type (starttype timerange) "line") eqn:Hline.
  - apply is_type_true in Hline.
    rewrite <-(scan_stop_raise_iff tickerlist (stopts timerange * 1000)).
    destruct (scan_stop _ _ _); simpl; split.
    + by intros [? ?].
    + by intros (_ & _ & [? ?]).
    + intros [? ?]. split; [done|]. split; [done|]. by eexists.
    + intros _. by eexists.
  - apply is_type_false in Hline.
    destruct (scan_stop tickerlist (stopts timerange * 1000) (len tickerlist))
      as [m|e] eqn:E; simpl.
    + split; [by intros [? ?]|]. by intros (? & _).
    + assert (len tickerlist < len tickerlist); [|lia].
      apply (scan_stop_raise_iff tickerlist (stopts timerange * 1000)).
      by eexists.
Qed.

(** X2: the out-of-range read happens in exactly one configuration: a
    non-empty list, a ['line'] start whose value is beyond the length of the
    list, and a ['date'] stop. *)
Theorem trim_tickerlist_index_error (tickerlist : list candle)
    (timerange : TimeRange) :
  trim_tickerlist tickerlist timerange = Raise IndexError ↔
  tickerlist ≠ [] ∧ starttype timerange = Some "line" ∧
  stoptype timerange = Some "date" ∧ len tickerlist < startts timerange.
Proof.
  rewrite <-resolve_indices_raise_iff.
  destruct tickerlist as [|r l]; simpl.
  { split; [done|]. by intros [? _]. }
  destruct (resolve_indices (r :: l) timerange) as [[i j]|e] eqn:E; simpl.
  - split; [by destruct (j <? i)|]. by intros [_ [? ?]].
  - apply resolve_indices_raises in E as ->. split; [|done].
    intros _. split; [done|]. by eexists.
Qed.

(** A slice ends where its clamped stop is. *)
Lemma py_slice_before_after {A} (l : list A) i j :
  ∃ before,
    l = before ++ py_slice l i j ++ drop (Z.to_nat (slice_bound (len l) j)) l.
Proof.
  unfold py_slice.
  set (s := slice_bound (len l) i). set (e := slice_bound (len l) j).
  destruct (Z.le_gt_cases s e) as [Hse|Hse].
  - assert (0 ≤ s) as Hs.
    { subst s. unfold slice_bound. pose proof (len_nonneg l).
      destruct (Z.ltb_spec i 0); lia. }
    exists (take (Z.to_nat s) l).
    rewrite app_assoc, take_take_drop.
    replace (Z.to_nat s + Z.to_nat (e - s))%nat with (Z.to_nat e) by lia.
    by rewrite take_drop.
  - exists (take (Z.to_nat e) l).
    replace (Z.to_nat (e - s)) with 0%nat by lia.
    simpl. by rewrite take_drop.
Qed.

(** What a ['date'] stop resolves to when the start is not a ['line']. *)
Lemma resolve_indices_date_stop l timerange i j :
  starttype timerange ≠ Some "line" →
  stoptype timerange = Some "date" →
  resolve_indices l timerange = Ok (i, j) →
  ∃ m : nat,
    j = Z.of_nat m ∧ (m ≤ length l)%nat ∧
    (∀ (k : nat) r, (m ≤ k)%nat → l !! k = Some r →
       stopts timerange * 1000 < timestamp_ms r) ∧
    (∀ r, (0 < m)%nat → l !! pred m = Some r →
       timestamp_ms r ≤ stopts timerange * 1000).
Proof.
  intros Hline%is_type_false Hdate.
  unfold resolve_indices, stop_side, start_side.
  rewrite Hline, Hdate; simpl. unfold scan_stop.
  destruct (Z.ltb_spec 0 (len l)) as [Hpos|Hzero]; simpl.
  - unfold len. rewrite Nat2Z.id.
    destruct (scan_stop_from l (stopts timerange * 1000) (length l))
      as [m|] eqn:E; simpl; [|done].
    intros [= <- <-]. apply scan_stop_from_spec in E as (Hm & Habove & Hat).
    exists m. split; [done|]. split; [done|]. split; [|done].
    intros k r Hk Hr. apply (Habove k); [|done].
    apply lookup_lt_Some in Hr. lia.
  - intros [= <- <-]. exists 0%nat. unfold len in *.
    split; [lia|]. split; [lia|]. split; [|intros; lia].
    intros k r _ Hr. apply lookup_lt_Some in Hr. lia.
Qed.

(** The rows returned under a ['date'] stop, in an ascending series. *)
Lemma trim_date_stop_upper l timerange out :
  starttype timerange ≠ Some "line" →
  stoptype timerange = Some "date" →
  ascending l →
  trim_tickerlist l timerange = Ok out →
  ∀ r, r ∈ out → timestamp_ms r ≤ stopts timerange * 1000.
Proof.
  intros Hline Hdate Hasc Hout r Hr.
  destruct l as [|r0 l]; [injection Hout as <-; by apply elem_of_nil in Hr|].
  unfold trim_tickerlist in Hout.
  destruct (resolve_indices (r0 :: l) timerange) as [[i j]|e] eqn:E;
    simpl in Hout; [|done].
  destruct (j <? i); [done|]. injection Hout as <-.
  apply resolve_indices_date_stop in E as (m & -> & Hm & _ & Hat); [|done..].
  apply py_slice_below in Hr; [|lia]. rewrite Nat2Z.id in Hr.
  apply elem_of_take in Hr as (k & Hk & Hkm).
  destruct (lookup_lt_is_Some_2 (r0 :: l) (pred m)) as [rm Hrm]; [lia|].
  pose proof (ascending_lookup_le _ k (pred m) _ _ Hasc ltac:(lia) Hk Hrm).
  specialize (Hat rm ltac:(lia) Hrm). lia.
Qed.

(** The rows returned under a ['date'] start, in an ascending series. *)
Lemma trim_date_start_lower l timerange out :
  starttype timerange = Some "date" →
  stoptype timerange ≠ Some "line" →
  ascending l →
  trim_tickerlist l timerange = Ok out →
  ∀ r, r ∈ out → startts timerange * 1000 ≤ timestamp_ms r.
Proof.
  intros Hdate Hline Hasc Hout r Hr.
  destruct l as [|r0 l]; [injection Hout as <-; by apply elem_of_nil in Hr|].
  unfold trim_tickerlist in Hout.
  destruct (resolve_indices (r0 :: l) timerange) as [[i j]|e] eqn:E;
    simpl in Hout; [|done].
  apply resolve_indices_start in E as Hi; [|done].
  destruct (scan_start_spec (r0 :: l) (startts timerange * 1000) 0)
    as (n & Hscan & Hn & _ & Hat).
  unfold start_side in Hi. rewrite Hdate in Hi; simpl in Hi.
  change (scan_start (r0 :: l) (startts timerange * 1000) 0) with
    (scan_start (r0 :: l) (startts timerange * 1000) 0) in Hscan.
  assert (i = Z.of_nat n) as -> by (simpl in Hscan; lia).
  destruct (Z.ltb_spec j (Z.of_nat n)); [done|]. injection Hout as <-.
  rewrite py_slice_nonneg in Hr by lia. rewrite Nat2Z.id in Hr.
  eapply ascending_drop_bound; [done..|].
  apply elem_of_take in Hr as (k & Hk & _). by eapply list_elem_of_lookup_2.
Qed.

(** X3: for an ascending series and a range whose stop is a ['date'] [t1]
    (and whose start is not a ['line'], which would move the stop), every
    row returned has a timestamp of at most [t1 * 1000] and every row of the
    series after the returned ones has a larger timestamp.  With no start
    at all the call returns. *)
Theorem trim_tickerlist_date_stop (tickerlist : list candle)
    (timerange : TimeRange) :
  starttype timerange ≠ Some "line" →
  stoptype timerange = Some "date" →
  ascending tickerlist →
  (starttype timerange = None →
   ∃ out, trim_tickerlist tickerlist timerange = Ok out) ∧
  (∀ out, trim_tickerlist tickerlist timerange = Ok out →
     ∃ before after,
       tickerlist = before ++ out ++ after ∧
       (∀ r, r ∈ out → timestamp_ms r ≤ stopts timerange * 1000) ∧
       (∀ r, r ∈ after → stopts timerange * 1000 < timestamp_ms r)).
Proof.
  intros Hline Hdate Hasc. split.
  - intros Hnone. destruct tickerlist as [|r0 l]; [by exists []|].
    unfold trim_tickerlist.
    destruct (resolve_indices (r0 :: l) timerange) as [[i j]|e] eqn:E; simpl.
    + assert (i = 0) as ->.
      { apply resolve_indices_start in E; [|congruence].
        unfold start_side in E. by rewrite Hnone in E. }
      apply resolve_indices_date_stop in E as (m & -> & _); [|done..].
      destruct (Z.ltb_spec (Z.of_nat m) 0); [lia|]. by eexists.
    + assert (∃ e, resolve_indices (r0 :: l) timerange = Raise e) as Hr
        by by eexists.
      apply resolve_indices_raise_iff in Hr as (? & _). congruence.
  - intros out Hout.
    pose proof (trim_date_stop_upper _ _ _ Hline Hdate Hasc Hout) as Hupper.
    destruct tickerlist as [|r0 l].
    { injection Hout as <-. exists [], []. split; [done|]. split; [done|].
      intros r. by rewrite elem_of_nil. }
    unfold trim_tickerlist in Hout.
    destruct (resolve_indices (r0 :: l) timerange) as [[i j]|e] eqn:E;
      simpl in Hout; [|done].
    destruct (j <? i); [done|]. injection Hout as <-.
    apply resolve_indices_date_stop in E as (m & -> & Hm & Habove & _); [|done..].
    destruct (py_slice_before_after (r0 :: l) i (Z.of_nat m)) as [before Hsplit].
    exists before, (drop m (r0 :: l)). split; [|split; [done|]].
    + rewrite Hsplit at 1. do 3 f_equal. unfold slice_bound, len.
      destruct (Z.ltb_spec (Z.of_nat m) 0); lia.
    + intros r (k & Hk)%list_elem_of_lookup_1. rewrite lookup_drop in Hk.
      apply (Habove (m + k)%nat); [lia|done].
Qed.

Lemma trim_tickerlist_date_stop_witness :
  ∃ before after,
    rows [1000; 2000; 3000; 4000; 5000] = before ++ rows [3000; 4000] ++ after ∧
    (∀ r, r ∈ rows [3000; 4000] → timestamp_ms r ≤ 4000) ∧
    (∀ r, r ∈ after → 4000 < timestamp_ms r).
Proof.
  destruct (trim_tickerlist_date_stop (rows [1000; 2000; 3000; 4000; 5000])
              sample_range) as [_ H].
  - discriminate.
  - reflexivity.
  - repeat constructor; unfold by_timestamp; simpl; lia.
  - exact (H _ eq_refl).
Defined.

(** X4: a ['line'] stop that asks for more rows than the list has does not
    give the whole list: the negative start index wraps around as a Python
    slice bound, and of [n] rows with [n < k] the call returns the rows from
    index [2 * n - k] on (all of them only when [k >= 2 * n]). *)
Theorem trim_tickerlist_line_stop_wraps (tickerlist : list candle)
    (starttype_ : option string) (startts_ k : Z) :
  starttype_ ≠ Some "line" →
  len tickerlist < k →
  trim_tickerlist tickerlist (mkTimeRange starttype_ (Some "line") startts_ (- k))
  = Ok (drop (Z.to_nat (2 * len tickerlist - k)) tickerlist).
Proof.
  intros Hline%is_type_false Hk.
  destruct tickerlist as [|r l]; [by rewrite drop_nil|].
  unfold trim_tickerlist, resolve_indices, start_side, stop_side; simpl.
  rewrite Hline; simpl.
  pose proof (len_nonneg (r :: l)).
  destruct (Z.ltb_spec (len (r :: l)) (len (r :: l) + - k)); [lia|].
  f_equal. unfold py_slice, slice_bound.
  destruct (Z.ltb_spec (len (r :: l) + - k) 0); [|lia].
  destruct (Z.ltb_spec (len (r :: l)) 0); [lia|].
  rewrite Z.min_id.
  replace (Z.to_nat (Z.max (len (r :: l) + - k + len (r :: l)) 0))
    with (Z.to_nat (2 * len (r :: l) - k)) by lia.
  rewrite take_ge; [done|]. rewrite length_drop. unfold len in *. lia.
Qed.

(** Three rows and a request for the last five: two come back. *)
Lemma trim_tickerlist_line_stop_wraps_witness :
  trim_tickerlist (rows [1000; 2000; 3000]) (mkTimeRange None (Some "line") 0 (-5))
  = Ok (rows [2000; 3000]).
Proof.
  apply (trim_tickerlist_line_stop_wraps (rows [1000; 2000; 3000]) None 0 5).
  - discriminate.
  - reflexivity.
Defined.

(** X5: on an ascending series, trimming with a ['date'] start and a ['date']
    stop a second time changes nothing. *)
Theorem trim_tickerlist_date_idempotent (tickerlist : list candle)
    (timerange : TimeRange) (out : list candle) :
  starttype timerange = Some "date" →
  stoptype timerange = Some "date" →
  ascending tickerlist →
  trim_tickerlist tickerlist timerange = Ok out →
  trim_tickerlist out timerange = Ok out.
Proof.
  intros Hstart Hstop Hasc Hout.
  assert (∀ r, r ∈ out → startts timerange * 1000 ≤ timestamp_ms r) as Hlower.
  { eapply trim_date_start_lower; [done| |done..]. congruence. }
  assert (∀ r, r ∈ out → timestamp_ms r ≤ stopts timerange * 1000) as Hupper.
  { eapply trim_date_stop_upper; [|done..]. congruence. }
  clear Hout Hasc. destruct out as [|first rest]; [done|].
  unfold trim_tickerlist, resolve_indices, start_side, stop_side.
  rewrite Hstart, Hstop. simpl is_type. cbv iota.
  assert (scan_start (first :: rest) (startts timerange * 1000) 0 = 0) as ->.
  { simpl. destruct (Z.ltb_spec (timestamp_ms first) (startts timerange * 1000));
      [|done].
    specialize (Hlower first ltac:(left)). lia. }
  assert (scan_stop (first :: rest) (stopts timerange * 1000)
            (len (first :: rest)) = Ok (len (first :: rest))) as ->.
  { unfold scan_stop, len. rewrite Nat2Z.id.
    destruct (Z.ltb_spec 0 (Z.of_nat (length (first :: rest)))); [|done].
    destruct (scan_stop_from_in_range (first :: rest) (stopts timerange * 1000)
                (length (first :: rest))) as [m Hm]; [done|].
    rewrite Hm. simpl. do 2 f_equal.
    apply scan_stop_from_spec in Hm as (Hle & Habove & _).
    destruct (decide (m = length (first :: rest))) as [->|Hne]; [done|].
    destruct (lookup_lt_is_Some_2 (first :: rest) m) as [r Hr];
      [simpl in *; lia|].
    specialize (Habove m r ltac:(simpl in *; lia) Hr).
    apply list_elem_of_lookup_2 in Hr. apply Hupper in Hr. lia. }
  simpl. pose proof (len_nonneg (first :: rest)).
  destruct (Z.ltb_spec (len (first :: rest)) 0); [lia|].
  by rewrite py_slice_all.
Qed.

Lemma trim_tickerlist_date_idempotent_witness :
  trim_tickerlist (rows [3000; 4000]) sample_range = Ok (rows [3000; 4000]).
Proof.
  apply (trim_tickerlist_date_idempotent (rows [1000; 2000; 3000; 4000; 5000])).
  - reflexivity.
  - reflexivity.
  - repeat constructor; unfold by_timestamp; simpl; lia.
  - reflexivity.
Defined.

(** ** load_cached_data_for_updating: the two outcomes *)

(** X6: a call that returns has one of two outcomes.  Either no rows are
    returned and [since_ms] is what the range requested, or the cache file
    holds rows, the rows returned are all of them but the last, and there is
    at least one. *)
Theorem load_cached_outcomes (env : Env) (fs : gmap string file_content)
    (filename tick_interval : string) (timerange : option TimeRange)
    (data : list candle) (since_ms : option Z) :
  load_cached_data_for_updating env fs filename tick_interval timerange
  = Ok (data, since_ms) →
  (data = [] ∧ requested_since env tick_interval timerange = Ok since_ms) ∨
  (data ≠ [] ∧
   ∃ cached, fs !! filename = Some (Series cached) ∧ data = removelast cached).
Proof.
  unfold load_cached_data_for_updating, read_cache.
  destruct (requested_since env tick_interval timerange) as [since|]; [|done].
  simpl. destruct (fs !! filename) as [[cached|]|] eqn:Hfile; simpl; [| |].
  - destruct (removelast cached) as [|first rest] eqn:E.
    + intros [= <- <-]. by left.
    + destruct (requested_before since first).
      * intros [= <- <-]. by left.
      * destruct (last (first :: rest)); [|done].
        intros [= <- <-]. right. split; [done|]. by exists cached.
  - done.
  - intros [= <- <-]. by left.
Qed.

Lemma load_cached_outcomes_witness :
  (rows [1000; 2000] = [] ∧ requested_since sample_env "5m" None = Ok (Some 2001)) ∨
  (rows [1000; 2000] ≠ [] ∧
   ∃ cached,
     ({[ "cache.json" := Series (rows [1000; 2000; 3000]) ]}
        : gmap string file_content) !! "cache.json" = Some (Series cached) ∧
     rows [1000; 2000] = removelast cached).
Proof.
  apply (load_cached_outcomes sample_env _ "cache.json" "5m" None).
  reflexivity.
Defined.

(** X7: with a ['line'] stop, no ['date'] start and an interval that
    [TICKER_INTERVAL_MINUTES] does not list, the call raises [KeyError] for
    that interval, whatever the cache file holds. *)
Theorem load_cached_unknown_interval (env : Env) (fs : gmap string file_content)
    (filename tick_interval : string) (timerange : TimeRange) :
  starttype timerange ≠ Some "date" →
  stoptype timerange = Some "line" →
  TICKER_INTERVAL_MINUTES env !! tick_interval = None →
  load_cached_data_for_updating env fs filename tick_interval (Some timerange)
  = Raise (KeyError tick_interval).
Proof.
  intros Hdate%is_type_false Hline%is_type_true Hkey.
  unfold load_cached_data_for_updating, requested_since.
  by rewrite Hdate, Hline, Hkey.
Qed.

Lemma load_cached_unknown_interval_witness :
  load_cached_data_for_updating sample_env
    {[ "cache.json" := Series (rows [1000; 2000; 3000]) ]} "cache.json" "7m"
    (Some (mkTimeRange None (Some "line") 0 (-5)))
  = Raise (KeyError "7m").
Proof.
  apply load_cached_unknown_interval; [discriminate|reflexivity|reflexivity].
Defined.

(** X8: a ['date'] start other than 0 that lies before the first cached
    row makes the call give up the cache: no rows are returned and
    [since_ms] is the requested start in milliseconds. *)
Theorem load_cached_refetch_on_earlier_start (env : Env)
    (fs : gmap string file_content) (filename tick_interval : string)
    (timerange : TimeRange) (first : candle) (rest : list candle)
    (dropped : candle) :
  starttype timerange = Some "date" →
  startts timerange ≠ 0 →
  fs !! filename = Some (Series (first :: rest ++ [dropped])) →
  startts timerange * 1000 < timestamp_ms first →
  load_cached_data_for_updating env fs filename tick_interval (Some timerange)
  = Ok ([], Some (startts timerange * 1000)).
Proof.
  intros Hdate%is_type_true Hnz Hfile Hlt.
  apply (load_cached_full_refetch env fs filename tick_interval _ _ first rest).
  - unfold requested_since. by rewrite Hdate.
  - unfold read_cache. rewrite Hfile.
    change (first :: rest ++ [dropped]) with ((first :: rest) ++ [dropped]).
    by rewrite removelast_last.
  - lia.
  - done.
Qed.

(** A request of 1 s against a cache that starts at 2 s. *)
Lemma load_cached_refetch_on_earlier_start_witness :
  load_cached_data_for_updating sample_env
    {[ "cache.json" := Series (rows [2000; 3000; 4000]) ]} "cache.json" "5m"
    (Some (mkTimeRange (Some "date") None 1 0))
  = Ok ([], Some 1000).
Proof.
  exact (load_cached_refetch_on_earlier_start sample_env
           {[ "cache.json" := Series (rows [2000; 3000; 4000]) ]} "cache.json"
           "5m" (mkTimeRange (Some "date") None 1 0) (row 2000) [row 3000]
           (row 4000) eq_refl ltac:(discriminate) eq_refl eq_refl).
Defined.

(** ** download_backtesting_testdata *)

(** What a download that went through has done. *)
Lemma download_backtesting_testdata_ok env datadir exchange pair_
    tick_interval timerange w w' :
  download_backtesting_testdata env datadir exchange pair_ tick_interval
    timerange w = (w', Ok ()) →
  ∃ data since_ms new_data,
    load_cached_data_for_updating env (files w)
      (cache_file env datadir pair_ tick_interval) tick_interval timerange
    = Ok (data, since_ms) ∧
    get_history exchange pair_ tick_interval (since_or_default env since_ms)
    = Ok new_data ∧
    data ++ new_data ≠ [] ∧
    length data ≠ 1%nat ∧
    files w'
    = <[cache_file env datadir pair_ tick_interval := Series (data ++ new_data)]>
        (files w).
Proof.
  unfold download_backtesting_testdata, mbind, M_bind, log, read_files, lift,
    file_dump_json, cache_file, formatted; simpl.
  destruct (load_cached_data_for_updating _ _ _ _ _) as [[data since]|];
    simpl; [|done].
  destruct data as [|r0 [|r1 data]]; simpl.
  - destruct (get_history _ _ _ _) as [new_data|] eqn:Hget; simpl; [|done].
    destruct new_data as [|n0 new_data]; simpl; [done|].
    unfold py_get; simpl.
    destruct (format_ms_time env (timestamp_ms n0)); simpl; [|done].
    destruct (last (n0 :: new_data)) as [rl|] eqn:E; simpl; [|done].
    destruct (format_ms_time env (timestamp_ms rl)); simpl; [|done].
    destruct (dump_failure env _ _); [done|].
    intros [= <-]. by exists [], since, (n0 :: new_data).
  - done.
  - unfold py_get; simpl.
    destruct (format_ms_time env (timestamp_ms r1)); simpl; [|done].
    destruct (last (r1 :: data)) as [rc|] eqn:Ec; simpl;
      [|by apply last_None in Ec].
    destruct (format_ms_time env (timestamp_ms rc)); simpl; [|done].
    destruct (get_history _ _ _ _) as [new_data|] eqn:Hget; simpl; [|done].
    destruct (format_ms_time env (timestamp_ms r0)); simpl; [|done].
    destruct (last (r1 :: data ++ new_data)) as [rl|] eqn:E; simpl; [|done].
    destruct (format_ms_time env (timestamp_ms rl)); simpl; [|done].
    destruct (dump_failure env _ _); [done|].
    intros [= <-]. by exists (r0 :: r1 :: data), since, new_data.
Qed.

(** X9: a download that goes through has asked the exchange for rows since
    the resume point (or since 30 days ago when there is none) and has stored
    the retained rows followed by the fetched ones under the pair's cache
    name; what it stores is never empty, and it never retains exactly one
    row. *)
Theorem download_stores_retained_and_fetched (env : Env) (datadir : string)
    (exchange : Exchange) (pair_ tick_interval : string)
    (timerange : option TimeRange) (w w' : world) :
  download_backtesting_testdata env datadir exchange pair_ tick_interval
    timerange w = (w', Ok ()) →
  ∃ data since_ms new_data,
    load_cached_data_for_updating env (files w)
      (cache_file env datadir pair_ tick_interval) tick_interval timerange
    = Ok (data, since_ms) ∧
    get_history exchange pair_ tick_interval (since_or_default env since_ms)
    = Ok new_data ∧
    data ++ new_data ≠ [] ∧
    length data ≠ 1%nat ∧
    files w'
    = <[cache_file env datadir pair_ tick_interval := Series (data ++ new_data)]>
        (files w).
Proof. apply download_backtesting_testdata_ok. Qed.

Lemma download_stores_retained_and_fetched_witness :
  ∃ data since_ms new_data,
    load_cached_data_for_updating sample_env ∅
      (cache_file sample_env "" "LTC/BTC" "5m") "5m" None
    = Ok (data, since_ms) ∧
    get_history sample_exchange "LTC/BTC" "5m" (since_or_default sample_env since_ms)
    = Ok new_data ∧
    data ++ new_data ≠ [] ∧
    length data ≠ 1%nat ∧
    files (download_backtesting_testdata sample_env "" sample_exchange "LTC/BTC"
             "5m" None (World ∅ [])).1
    = <[cache_file sample_env "" "LTC/BTC" "5m" := Series (data ++ new_data)]> ∅.
Proof.
  apply (download_stores_retained_and_fetched sample_env "" sample_exchange
           "LTC/BTC" "5m" None (World ∅ [])).
  reflexivity.
Defined.

(** The other direction: when the cache loads, does not leave exactly one
    row, the exchange answers, there is something to store, the timestamps
    can be formatted for the debug lines and the write does not fail, the
    download goes through. *)
Lemma download_backtesting_testdata_run env datadir exchange pair_
    tick_interval timerange w data since_ms new_data :
  load_cached_data_for_updating env (files w)
    (cache_file env datadir pair_ tick_interval) tick_interval timerange
  = Ok (data, since_ms) →
  length data ≠ 1%nat →
  get_history exchange pair_ tick_interval (since_or_default env since_ms)
  = Ok new_data →
  data ++ new_data ≠ [] →
  (∀ r, r ∈ data ++ new_data → ∃ s, format_ms_time env (timestamp_ms r) = Ok s) →
  dump_failure env (cache_file env datadir pair_ tick_interval) (data ++ new_data)
  = None →
  ∃ w',
    download_backtesting_testdata env datadir exchange pair_ tick_interval
      timerange w = (w', Ok ()) ∧
    files w'
    = <[cache_file env datadir pair_ tick_interval := Series (data ++ new_data)]>
        (files w).
Proof.
  intros Hload Hlen Hget Hne Hfmt Hdump.
  unfold download_backtesting_testdata, mbind, M_bind, log, read_files, lift,
    file_dump_json, formatted; simpl.
  unfold cache_file in Hload, Hdump. rewrite Hload; simpl.
  destruct data as [|r0 [|r1 data]]; simpl in *; [| done |].
  - rewrite Hget; simpl.
    destruct new_data as [|n0 new_data]; [done|]. unfold py_get; simpl.
    destruct (Hfmt n0) as [s0 ->]; [by left|]. simpl.
    destruct (last (n0 :: new_data)) as [rl|] eqn:E; simpl;
      [|by apply last_None in E].
    destruct (Hfmt rl) as [sl ->]; [by apply last_Some_elem_of|]. simpl.
    rewrite Hdump. by eexists.
  - unfold py_get; simpl.
    destruct (Hfmt r1) as [s1 ->]; [right; by left|]. simpl.
    destruct (last (r1 :: data)) as [rc|] eqn:Ec; simpl;
      [|by apply last_None in Ec].
    destruct (Hfmt rc) as [sc ->].
    { apply last_Some_elem_of in Ec. right.
      change (rc ∈ (r1 :: data) ++ new_data). apply elem_of_app. by left. }
    simpl. rewrite Hget; simpl.
    destruct (Hfmt r0) as [s0' ->]; [by left|]. simpl.
    destruct (last (r1 :: data ++ new_data)) as [rl|] eqn:E; simpl;
      [|by apply last_None in E].
    destruct (Hfmt rl) as [sl ->]; [right; by apply last_Some_elem_of|]. simpl.
    rewrite Hdump. by eexists.
Qed.

(** X10: whether it goes through or raises, a download leaves every file
    other than the cache file of its pair and interval as it was. *)
Theorem download_touches_one_file (env : Env) (datadir : string)
    (exchange : Exchange) (pair_ tick_interval : string)
    (timerange : option TimeRange) (w w' : world) (r : result unit)
    (other : string) :
  download_backtesting_testdata env datadir exchange pair_ tick_interval
    timerange w = (w', r) →
  other ≠ cache_file env datadir pair_ tick_interval →
  files w' !! other = files w !! other.
Proof.
  intros Hrun Hother. destruct r as [[]|e].
  - apply download_backtesting_testdata_ok in Hrun as (? & ? & ? & _ & _ & _ & _ & ->).
    by rewrite lookup_insert_ne.
  - by rewrite (download_backtesting_testdata_raise _ _ _ _ _ _ _ _ _ Hrun).
Qed.

Lemma download_touches_one_file_witness :
  files (download_backtesting_testdata sample_env "" sample_exchange "LTC/BTC"
           "5m" None (World {[ "notes.txt" := Malformed ]} [])).1 !! "notes.txt"
  = files (World {[ "notes.txt" := Malformed ]} []) !! "notes.txt".
Proof.
  apply (download_touches_one_file sample_env "" sample_exchange "LTC/BTC" "5m"
           None (World {[ "notes.txt" := Malformed ]} []) _ (Ok ()) "notes.txt").
  - reflexivity.
  - discriminate.
Defined.

(** X11: a cache file of exactly two rows whose first row is not after a
    requested start makes the download fail.  One row is retained, the
    debug line for the current start reads [data[1]], and the [IndexError]
    leaves before the exchange is asked: nothing but the first log record
    happens. *)
Theorem download_two_row_cache (env : Env) (datadir : string)
    (exchange : Exchange) (pair_ tick_interval : string)
    (timerange : option TimeRange) (w : world) (a b : candle)
    (since_ms : option Z) :
  files w !! cache_file env datadir pair_ tick_interval = Some (Series [a; b]) →
  requested_since env tick_interval timerange = Ok since_ms →
  requested_before since_ms a = false →
  download_backtesting_testdata env datadir exchange pair_ tick_interval
    timerange w
  = (World (files w) (logged w ++ [Info_download_pair pair_ tick_interval]),
     Raise IndexError).
Proof.
  intros Hfile Hsince Hbefore.
  unfold download_backtesting_testdata, mbind, M_bind, log, read_files, lift,
    file_dump_json; simpl.
  unfold load_cached_data_for_updating, read_cache.
  unfold cache_file in Hfile. rewrite Hsince, Hfile; simpl.
  by rewrite Hbefore.
Qed.

Lemma download_two_row_cache_witness :
  download_backtesting_testdata sample_env "/data" steady_exchange "LTC/BTC" "5m"
    None (World {[ "/data/LTC_BTC-5m.json" := Series (rows [1000; 2000]) ]} [])
  = (World {[ "/data/LTC_BTC-5m.json" := Series (rows [1000; 2000]) ]}
       [Info_download_pair "LTC/BTC" "5m"],
     Raise IndexError).
Proof.
  exact (download_two_row_cache sample_env "/data" steady_exchange "LTC/BTC" "5m"
           None (World {[ "/data/LTC_BTC-5m.json" := Series (rows [1000; 2000]) ]} [])
           (row 1000) (row 2000) None eq_refl eq_refl eq_refl).
Defined.

(** X12: with a cache of at least three rows, no requested start, and a last
    retained timestamp other than -1, the exchange is asked for the rows
    since that timestamp plus one.  If [misc.format_ms_time] accepts the
    timestamps of the rows and the write does not fail, the file then holds
    the cache without its last row followed by the answer: one row fewer
    than before plus the fetched ones. *)
Theorem download_appends (env : Env) (datadir : string) (exchange : Exchange)
    (pair_ tick_interval : string) (timerange : option TimeRange) (w : world)
    (kept : list candle) (a b dropped : candle) (new_data : list candle) :
  files w !! cache_file env datadir pair_ tick_interval
  = Some (Series (kept ++ [a; b; dropped])) →
  requested_since env tick_interval timerange = Ok None →
  timestamp_ms b ≠ -1 →
  get_history exchange pair_ tick_interval (timestamp_ms b + 1) = Ok new_data →
  (∀ r, r ∈ kept ++ [a; b] ++ new_data →
     ∃ s, format_ms_time env (timestamp_ms r) = Ok s) →
  dump_failure env (cache_file env datadir pair_ tick_interval)
    (kept ++ [a; b] ++ new_data) = None →
  ∃ w',
    download_backtesting_testdata env datadir exchange pair_ tick_interval
      timerange w = (w', Ok ()) ∧
    files w'
    = <[cache_file env datadir pair_ tick_interval
        := Series (kept ++ [a; b] ++ new_data)]> (files w) ∧
    length (kept ++ [a; b] ++ new_data)
    = (length (kept ++ [a; b; dropped]) - 1 + length new_data)%nat.
Proof.
  intros Hfile Hsince Hb Hget Hfmt Hdump.
  assert (load_cached_data_for_updating env (files w)
            (cache_file env datadir pair_ tick_interval) tick_interval timerange
          = Ok (kept ++ [a; b], Some (timestamp_ms b + 1))) as Hload.
  { unfold load_cached_data_for_updating, read_cache.
    rewrite Hsince, Hfile; simpl.
    replace (kept ++ [a; b; dropped]) with ((kept ++ [a]) ++ [b; dropped])
      by by rewrite <-app_assoc.
    rewrite removelast_snoc2, <-app_assoc; simpl.
    destruct (kept ++ [a; b]) as [|first rest] eqn:E; [by destruct kept|].
    simpl. rewrite <-E.
    replace (kept ++ [a; b]) with ((kept ++ [a]) ++ [b]) by by rewrite <-app_assoc.
    by rewrite last_snoc. }
  destruct (download_backtesting_testdata_run env datadir exchange pair_
              tick_interval timerange w _ _ new_data Hload) as (w' & Hrun & Hfiles).
  - rewrite length_app; simpl. lia.
  - simpl. by destruct (Z.eqb_spec (timestamp_ms b + 1) 0); [lia|].
  - by destruct kept.
  - by rewrite <-app_assoc.
  - by rewrite <-app_assoc.
  - exists w'. split; [done|]. rewrite <-app_assoc in Hfiles. split; [done|].
    rewrite !length_app; simpl. lia.
Qed.

Lemma download_appends_witness :
  ∃ w',
    download_backtesting_testdata sample_env "/data" steady_exchange "LTC/BTC"
      "5m" None
      (World {[ "/data/LTC_BTC-5m.json" := Series (rows [1000; 2000; 3000; 4000]) ]} [])
    = (w', Ok ()) ∧
    files w'
    = <[ "/data/LTC_BTC-5m.json"
         := Series (rows [1000; 2000; 3000; 3001; 303001]) ]>
        {[ "/data/LTC_BTC-5m.json" := Series (rows [1000; 2000; 3000; 4000]) ]} ∧
    length (rows [1000; 2000; 3000; 3001; 303001]) = (4 - 1 + 2)%nat.
Proof.
  exact (download_appends sample_env "/data" steady_exchange "LTC/BTC" "5m" None
           (World {[ "/data/LTC_BTC-5m.json"
                     := Series (rows [1000; 2000; 3000; 4000]) ]} [])
           (rows [1000]) (row 2000) (row 3000) (row 4000)
           (rows [3001; 303001]) eq_refl eq_refl ltac:(discriminate) eq_refl
           (λ r _, ex_intro _ _ eq_refl) eq_refl).
Defined.

(** X13: with no cache file and no requested start, the exchange is asked
    for the rows of the last 30 days.  An empty answer makes the download
    fail with [IndexError] and no file is written; a non-empty answer becomes
    the cache file if [misc.format_ms_time] accepts its timestamps and the
    write does not fail. *)
Theorem download_without_cache (env : Env) (datadir : string)
    (exchange : Exchange) (pair_ tick_interval : string)
    (timerange : option TimeRange) (w : world) (new_data : list candle) :
  files w !! cache_file env datadir pair_ tick_interval = None →
  requested_since env tick_interval timerange = Ok None →
  get_history exchange pair_ tick_interval ((utcnow env - 30 * 86400) * 1000)
  = Ok new_data →
  (∀ r, r ∈ new_data → ∃ s, format_ms_time env (timestamp_ms r) = Ok s) →
  (new_data ≠ [] →
   dump_failure env (cache_file env datadir pair_ tick_interval) new_data = None) →
  ∃ w',
    download_backtesting_testdata env datadir exchange pair_ tick_interval
      timerange w
    = (w', if bool_decide (new_data = []) then Raise IndexError else Ok ()) ∧
    files w'
    = if bool_decide (new_data = []) then files w
      else <[cache_file env datadir pair_ tick_interval := Series new_data]>
             (files w).
Proof.
  intros Hfile Hsince Hget Hfmt Hdump.
  assert (load_cached_data_for_updating env (files w)
            (cache_file env datadir pair_ tick_interval) tick_interval timerange
          = Ok ([], None)) as Hload.
  { unfold load_cached_data_for_updating, read_cache. by rewrite Hsince, Hfile. }
  case_bool_decide as Hempty.
  - subst new_data.
    unfold download_backtesting_testdata, mbind, M_bind, log, read_files, lift,
      file_dump_json; simpl.
    unfold cache_file in Hload. rewrite Hload; simpl. rewrite Hget; simpl.
    by eexists.
  - apply (download_backtesting_testdata_run env datadir exchange pair_
             tick_interval timerange w [] None new_data); auto.
Qed.

Lemma download_without_cache_witness :
  ∃ w',
    download_backtesting_testdata sample_env "/data" steady_exchange "LTC/BTC"
      "5m" None (World ∅ [])
    = (w', Ok ()) ∧
    files w'
    = <[ "/data/LTC_BTC-5m.json"
         := Series (rows [1697408000000; 1697408300000]) ]> ∅.
Proof.
  exact (download_without_cache sample_env "/data" steady_exchange "LTC/BTC" "5m"
           None (World ∅ []) (rows [1697408000000; 1697408300000])
           eq_refl eq_refl eq_refl (λ r _, ex_intro _ _ eq_refl) (λ _, eq_refl)).
Defined.

(** ** download_pairs: what a batch leaves behind *)

Lemma download_backtesting_testdata_frame env datadir exchange pair_
    tick_interval timerange w w' r other :
  download_backtesting_testdata env datadir exchange pair_ tick_interval
    timerange w = (w', r) →
  other ≠ cache_file env datadir pair_ tick_interval →
  files w' !! other = files w !! other.
Proof.
  intros Hrun Hother. destruct r as [[]|e].
  - apply download_backtesting_testdata_ok in Hrun as (? & ? & ? & _ & _ & _ & _ & ->).
    by rewrite lookup_insert_ne.
  - by rewrite (download_backtesting_testdata_raise _ _ _ _ _ _ _ _ _ Hrun).
Qed.

(** No download empties or removes a cache file that holds rows. *)
Lemma download_backtesting_testdata_keeps_rows env datadir exchange pair_
    tick_interval timerange w w' r name :
  download_backtesting_testdata env datadir exchange pair_ tick_interval
    timerange w = (w', r) →
  holds_rows (files w) name → holds_rows (files w') name.
Proof.
  intros Hrun Hrows.
  destruct (decide (name = cache_file env datadir pair_ tick_interval)) as [->|Hne].
  - destruct r as [[]|e].
    + apply download_backtesting_testdata_ok in Hrun
        as (data & ? & new_data & _ & _ & Hne & _ & ->).
      exists (data ++ new_data). by rewrite lookup_insert_eq.
    + by rewrite (download_backtesting_testdata_raise _ _ _ _ _ _ _ _ _ Hrun).
  - unfold holds_rows.
    by rewrite (download_backtesting_testdata_frame _ _ _ _ _ _ _ _ _ _ Hrun Hne).
Qed.

Lemma download_pairs_keeps_rows env datadir exchange pairs ticker_interval
    timerange w w' ok name :
  download_pairs env datadir exchange pairs ticker_interval timerange w = (w', ok) →
  holds_rows (files w) name → holds_rows (files w') name.
Proof.
  revert w. induction pairs as [|p pairs IH]; intros w; simpl.
  { by intros [= <- <-]. }
  destruct (download_backtesting_testdata _ _ _ p _ _ _) as [w1 [[]|e]] eqn:Hrun.
  - intros Hrest Hrows. eapply IH; [done|].
    by eapply download_backtesting_testdata_keeps_rows.
  - intros [= <- <-] Hrows. simpl.
    by eapply download_backtesting_testdata_keeps_rows.
Qed.

(** X14: when [download_pairs] returns [True], every pair of the list has a
    cache file that holds at least one row. *)
Theorem download_pairs_true_all_cached (env : Env) (datadir : string)
    (exchange : Exchange) (pairs : list string) (ticker_interval : string)
    (timerange : option TimeRange) (w w' : world) :
  download_pairs env datadir exchange pairs ticker_interval timerange w
  = (w', true) →
  ∀ pair_, pair_ ∈ pairs →
    ∃ data,
      files w' !! cache_file env datadir pair_ ticker_interval
      = Some (Series data) ∧ data ≠ [].
Proof.
  revert w. induction pairs as [|p pairs IH]; intros w; simpl.
  { intros _ pair_ Hin. by apply elem_of_nil in Hin. }
  destruct (download_backtesting_testdata _ _ _ p _ _ _) as [w1 [[]|e]] eqn:Hrun;
    [|done].
  intros Hrest pair_ [->|Hin]%elem_of_cons; [|by eapply IH].
  eapply download_pairs_keeps_rows; [done|].
  apply download_backtesting_testdata_ok in Hrun
    as (data & ? & new_data & _ & _ & Hne & _ & ->).
  exists (data ++ new_data). by rewrite lookup_insert_eq.
Qed.

Lemma download_pairs_true_all_cached_witness :
  ∃ data,
    files (download_pairs sample_env "/data" steady_exchange
             ["LTC/BTC"; "XRP/BTC"] "5m" None (World ∅ [])).1
      !! cache_file sample_env "/data" "XRP/BTC" "5m"
    = Some (Series data) ∧ data ≠ [].
Proof.
  apply (download_pairs_true_all_cached sample_env "/data" steady_exchange
           ["LTC/BTC"; "XRP/BTC"] "5m" None (World ∅ [])).
  - reflexivity.
  - right. left.
Defined.

(** X15: [download_pairs] leaves every file that is not the cache file of one
    of its pairs as it was, whatever it returns. *)
Theorem download_pairs_frame (env : Env) (datadir : string)
    (exchange : Exchange) (pairs : list string) (ticker_interval : string)
    (timerange : option TimeRange) (w w' : world) (ok : bool) (other : string) :
  download_pairs env datadir exchange pairs ticker_interval timerange w = (w', ok) →
  (∀ pair_, pair_ ∈ pairs → other ≠ cache_file env datadir pair_ ticker_interval) →
  files w' !! other = files w !! other.
Proof.
  revert w. induction pairs as [|p pairs IH]; intros w; simpl.
  { by intros [= <- <-]. }
  destruct (download_backtesting_testdata _ _ _ p _ _ _) as [w1 [[]|e]] eqn:Hrun.
  - intros Hrest Hother. rewrite (IH _ Hrest).
    + eapply download_backtesting_testdata_frame; [done|]. apply Hother. by left.
    + intros q Hq. apply Hother. by right.
  - intros [= <- <-] Hother. simpl.
    eapply download_backtesting_testdata_frame; [done|]. apply Hother. by left.
Qed.

Lemma download_pairs_frame_witness :
  files (download_pairs sample_env "/data" sample_exchange
           ["LTC/BTC"; "ETH/BTC"] "5m" None
           (World {[ "/data/XRP_BTC-5m.json" := Series (rows [1000]) ]} [])).1
    !! "/data/XRP_BTC-5m.json"
  = files (World {[ "/data/XRP_BTC-5m.json" := Series (rows [1000]) ]} [])
      !! "/data/XRP_BTC-5m.json".
Proof.
  apply (download_pairs_frame sample_env "/data" sample_exchange
           ["LTC/BTC"; "ETH/BTC"] "5m" None
           (World {[ "/data/XRP_BTC-5m.json" := Series (rows [1000]) ]} []) _ false).
  - reflexivity.
  - intros pair_ Hin. repeat (apply elem_of_cons in Hin as [->|Hin]); try discriminate.
    by apply elem_of_nil in Hin.
Defined.

(** ** validate_backtest_data: the warnings *)

(** When no frame is short, nothing is logged and the flag stays. *)
Lemma validate_frames_none_short items expected_frames found_missing w :
  (∀ item, item ∈ items → expected_frames ≤ len item.2) →
  validate_frames items expected_frames found_missing w = (w, Ok found_missing).
Proof.
  induction items as [|[p df] items IH]; intros Hall; simpl; [done|].
  destruct (Z.ltb_spec (len df) expected_frames) as [Hshort|_].
  - specialize (Hall (p, df) ltac:(left)). simpl in Hall. lia.
  - apply IH. intros item Hin. apply Hall. by right.
Qed.

Lemma validate_frames_warnings items expected_frames found_missing w :
  ∃ b,
    validate_frames items expected_frames found_missing w
    = (World (files w)
         (logged w ++
          map (λ item, Warning_missing_frames item.1 expected_frames (len item.2)
                         (expected_frames - len item.2))
              (List.filter (short_frame expected_frames) items)),
       Ok b).
Proof.
  revert found_missing w.
  induction items as [|[p df] items IH]; intros found w; simpl.
  { exists found. rewrite app_nil_r. by destruct w. }
  unfold short_frame at 1; simpl.
  destruct (len df <? expected_frames); simpl.
  - unfold mbind, M_bind, log; simpl.
    destruct (IH true (World (files w)
      (logged w ++ [Warning_missing_frames p expected_frames (len df)
                      (expected_frames - len df)]))) as (b & ->).
    exists b. simpl. by rewrite <-app_assoc.
  - apply IH.
Qed.

(** X16: whenever the expected count can be computed, the call logs one
    warning for each frame that has fewer rows than that count, in the order
    of the dict, with the expected count, the count found and their
    difference, and logs nothing else. *)
Theorem validate_backtest_data_warnings (data : list (string * DataFrame))
    (min_date max_date ticker_interval_mins : Z) (w : world) (expected : Z) :
  expected_frames_of min_date max_date ticker_interval_mins = Ok expected →
  ∃ found_missing,
    validate_backtest_data data min_date max_date ticker_interval_mins w
    = (World (files w)
         (logged w ++
          map (λ item, Warning_missing_frames item.1 expected (len item.2)
                         (expected - len item.2))
              (List.filter (λ item, len item.2 <? expected) data)),
       Ok found_missing).
Proof.
  intros Hexpected. unfold validate_backtest_data. rewrite Hexpected.
  unfold mbind, M_bind, lift.
  apply (validate_frames_warnings data expected false w).
Qed.

Lemma validate_backtest_data_warnings_witness :
  ∃ found_missing,
    validate_backtest_data
      [("ETH/BTC", rows [0; 300000]); ("LTC/BTC", rows [0; 300000; 600000]);
       ("XRP/BTC", [])]
      0 900000000 5 (World ∅ [])
    = (World ∅ [Warning_missing_frames "ETH/BTC" 3 2 1;
                Warning_missing_frames "XRP/BTC" 3 0 3],
       Ok found_missing).
Proof.
  exact (validate_backtest_data_warnings
           [("ETH/BTC", rows [0; 300000]); ("LTC/BTC", rows [0; 300000; 600000]);
            ("XRP/BTC", [])]
           0 900000000 5 (World ∅ []) 3 eq_refl).
Defined.

(** X17: for a positive interval of at most 53 bits and two dates less than
    [2 ^ 34] seconds apart, when the dates are less than one interval apart
    (or in the wrong order) no frame can be short: the answer is [False] and
    nothing is logged, even for empty frames. *)
Theorem validate_backtest_data_short_range (data : list (string * DataFrame))
    (min_date max_date ticker_interval_mins : Z) (w : world) :
  0 < ticker_interval_mins < 2 ^ 53 →
  Z.abs (max_date - min_date) < 2 ^ 34 * 1000000 →
  max_date - min_date < 60000000 * ticker_interval_mins →
  validate_backtest_data data min_date max_date ticker_interval_mins w
  = (w, Ok false).
Proof.
  intros Hpos Hspan Hshort. unfold validate_backtest_data.
  rewrite expected_frames_of_exact by lia.
  unfold mbind, M_bind, lift.
  apply validate_frames_none_short. intros item _.
  pose proof (len_nonneg item.2).
  assert ((max_date - min_date) / 60000000 < ticker_interval_mins)
    by (apply Z.div_lt_upper_bound; lia).
  assert ((max_date - min_date) / 60000000 / ticker_interval_mins < 1)
    by (apply Z.div_lt_upper_bound; lia).
  lia.
Qed.

Lemma validate_backtest_data_short_range_witness :
  validate_backtest_data [("ETH/BTC", []); ("LTC/BTC", rows [0])]
    0 299000000 5 (World ∅ [])
  = (World ∅ [], Ok false).
Proof.
  apply (validate_backtest_data_short_range
           [("ETH/BTC", []); ("LTC/BTC", rows [0])] 0 299000000 5 (World ∅ []));
    [split; [lia|reflexivity]|reflexivity|lia].
Defined.

(** ** The cache file name *)

Lemma string_length_app (s t : string) :
  String.length (s +:+ t) = (String.length s + String.length t)%nat.
Proof. induction s as [|a s IH]; simpl; [done|]. by rewrite IH. Qed.

Lemma gz_name_differs (s : string) : s +:+ ".gz" ≠ s.
Proof.
  intros H. apply (f_equal String.length) in H.
  rewrite string_length_app in H. simpl in H. lia.
Qed.




(** ** load_tickerdata_file and load_data *)

(** Loading reads: it changes no file, and its result depends on the files
    only. *)
Lemma load_tickerdata_file_files env datadir pair_ ticker_interval timerange w :
  lw_files (load_tickerdata_file env datadir pair_ ticker_interval timerange w).1
  = lw_files w.
Proof.
  unfold load_tickerdata_file. by repeat case_match.
Qed.

Lemma load_tickerdata_file_result env datadir pair_ ticker_interval timerange w1 w2 :
  lw_files w1 = lw_files w2 →
  (load_tickerdata_file env datadir pair_ ticker_interval timerange w1).2
  = (load_tickerdata_file env datadir pair_ ticker_interval timerange w2).2.
Proof.
  intros Hfiles. unfold load_tickerdata_file. rewrite Hfiles.
  by repeat case_match.
Qed.

(** X19: what a download stored is what loading without a range returns,
    unless a [.gz] file of the same name is there. *)
Theorem download_then_load (env : Env) (datadir : string) (exchange : Exchange)
    (pair_ tick_interval : string) (timerange : option TimeRange)
    (w w' : world) (log_ : list load_record) :
  download_backtesting_testdata env datadir exchange pair_ tick_interval
    timerange w = (w', Ok ()) →
  files w' !! (cache_file env datadir pair_ tick_interval +:+ ".gz") = None →
  ∃ stored,
    stored ≠ [] ∧
    files w' !! cache_file env datadir pair_ tick_interval = Some (Series stored) ∧
    (load_tickerdata_file env datadir pair_ tick_interval None
       (LoadWorld (files w') log_)).2 = Loaded (Some stored).
Proof.
  intros Hrun Hgz.
  apply download_backtesting_testdata_ok in Hrun
    as (data & ? & new_data & _ & _ & Hne & _ & Hfiles).
  exists (data ++ new_data). split; [done|].
  assert (files w' !! cache_file env datadir pair_ tick_interval
          = Some (Series (data ++ new_data))) as Hfile.
  { by rewrite Hfiles, lookup_insert_eq. }
  split; [done|].
  unfold load_tickerdata_file. simpl. by rewrite Hgz, Hfile.
Qed.

Lemma download_then_load_witness :
  ∃ stored,
    stored ≠ [] ∧
    files (download_backtesting_testdata sample_env "/data" steady_exchange
             "LTC/BTC" "5m" None (World ∅ [])).1
      !! cache_file sample_env "/data" "LTC/BTC" "5m" = Some (Series stored) ∧
    (load_tickerdata_file sample_env "/data" "LTC/BTC" "5m" None
       (LoadWorld
          (files (download_backtesting_testdata sample_env "/data" steady_exchange
                    "LTC/BTC" "5m" None (World ∅ [])).1) [])).2
    = Loaded (Some stored).
Proof.
  apply (download_then_load sample_env "/data" steady_exchange "LTC/BTC" "5m"
           None (World ∅ [])); reflexivity.
Defined.

(** X20: a [.gz] file hides what a download stores.  The download writes the
    plain file only, loading looks at the [.gz] file first, so after a
    download that went through the load still returns what the [.gz] file
    held before. *)
Theorem download_then_load_stale_gzip (env : Env) (datadir : string)
    (exchange : Exchange) (pair_ tick_interval : string)
    (timerange : option TimeRange) (load_range : option TimeRange)
    (w w' : world) (r : result unit) (content : file_content)
    (log_ : list load_record) :
  download_backtesting_testdata env datadir exchange pair_ tick_interval
    timerange w = (w', r) →
  files w !! (cache_file env datadir pair_ tick_interval +:+ ".gz") = Some content →
  (load_tickerdata_file env datadir pair_ tick_interval load_range
     (LoadWorld (files w') log_)).2 = decode_and_trim content load_range.
Proof.
  intros Hrun Hgz.
  unfold load_tickerdata_file. simpl.
  rewrite (download_backtesting_testdata_frame _ _ _ _ _ _ _ _ _ _ Hrun
             (gz_name_differs _)).
  by rewrite Hgz.
Qed.

Lemma download_then_load_stale_gzip_witness :
  (load_tickerdata_file sample_env "/data" "LTC/BTC" "5m" None
     (LoadWorld
        (files (download_backtesting_testdata sample_env "/data" steady_exchange
                  "LTC/BTC" "5m" None
                  (World {[ "/data/LTC_BTC-5m.json.gz" := Series (rows [1000]) ]}
                     [])).1) [])).2
  = decode_and_trim (Series (rows [1000])) None.
Proof.
  apply (download_then_load_stale_gzip sample_env "/data" steady_exchange
           "LTC/BTC" "5m" None None
           (World {[ "/data/LTC_BTC-5m.json.gz" := Series (rows [1000]) ]} [])
           _ (Ok ())); reflexivity.
Defined.

(** The dict: assignment adds or replaces one entry and keeps keys unique. *)
Lemma dict_set_elem_of {V} (d : list (string * V)) k v p v' :
  (p, v') ∈ dict_set d k v → (p, v') ∈ d ∨ (p, v') = (k, v).
Proof.
  induction d as [|[k0 v0] d IH]; simpl.
  { intros ->%list_elem_of_singleton. by right. }
  destruct (String.eqb_spec k0 k) as [->|Hne].
  - intros [->|Hin]%elem_of_cons; [by right|]. left. by right.
  - intros [->|Hin]%elem_of_cons; [left; by left|].
    destruct (IH Hin) as [?|?]; [left; by right|by right].
Qed.

Lemma dict_set_new {V} (d : list (string * V)) k v : (k, v) ∈ dict_set d k v.
Proof.
  induction d as [|[k0 v0] d IH]; simpl; [by left|].
  destruct (String.eqb_spec k0 k) as [->|Hne]; [by left|by right].
Qed.

Lemma dict_set_other {V} (d : list (string * V)) k v p v' :
  p ≠ k → (p, v') ∈ d → (p, v') ∈ dict_set d k v.
Proof.
  intros Hne. induction d as [|[k0 v0] d IH]; simpl.
  { intros Hin. by apply elem_of_nil in Hin. }
  destruct (String.eqb_spec k0 k) as [->|Hne0].
  - intros [[= -> ->]|Hin]%elem_of_cons; [done|by right].
  - intros [[= -> ->]|Hin]%elem_of_cons; [by left|right; by apply IH].
Qed.

Lemma dict_set_keys {V} (d : list (string * V)) k v x :
  x ∈ (dict_set d k v).*1 ↔ x ∈ d.*1 ∨ x = k.
Proof.
  induction d as [|[k0 v0] d IH]; simpl.
  { rewrite list_elem_of_singleton, elem_of_nil. tauto. }
  destruct (String.eqb_spec k0 k) as [->|Hne]; simpl; rewrite !elem_of_cons.
  - split; [tauto|]. intros [[?|?]|?]; auto.
  - rewrite IH. tauto.
Qed.

Lemma dict_set_NoDup {V} (d : list (string * V)) k v :
  NoDup d.*1 → NoDup (dict_set d k v).*1.
Proof.
  induction d as [|[k0 v0] d IH]; simpl.
  { intros _. apply NoDup_singleton. }
  intros [Hnot Hd]%NoDup_cons.
  destruct (String.eqb_spec k0 k) as [->|Hne]; simpl.
  - by apply NoDup_cons.
  - apply NoDup_cons. split; [|by apply IH].
    rewrite dict_set_keys. intros [?|?]; [done|congruence].
Qed.

Lemma warn_boundaries_files pair_ timerange first last_ w :
  lw_files (warn_boundaries pair_ timerange first last_ w) = lw_files w.
Proof. unfold warn_boundaries. by repeat case_match. Qed.

Lemma loads_rows_files env datadir ticker_interval timerange w1 w2 pair_ pairdata :
  lw_files w1 = lw_files w2 →
  loads_rows env datadir ticker_interval timerange w1 pair_ pairdata →
  loads_rows env datadir ticker_interval timerange w2 pair_ pairdata.
Proof.
  intros Hfiles [Hne Hload]. split; [done|].
  by rewrite <-(load_tickerdata_file_result _ _ _ _ _ w1 w2).
Qed.

(** The loop of [load_data], from any dict built so far. *)
Lemma load_pairs_spec env datadir ticker_interval pairs timerange acc w w' r :
  load_pairs env datadir ticker_interval pairs timerange acc w = (w', r) →
  lw_files w' = lw_files w ∧
  ∀ result, r = Loaded result →
    (NoDup acc.*1 → NoDup result.*1) ∧
    (∀ p rows_, (p, rows_) ∈ result →
       (p, rows_) ∈ acc ∨
       (p ∈ pairs ∧ loads_rows env datadir ticker_interval timerange w p rows_)) ∧
    (∀ p rows_, loads_rows env datadir ticker_interval timerange w p rows_ →
       p ∈ pairs ∨ (p, rows_) ∈ acc → (p, rows_) ∈ result).
Proof.
  revert acc w. induction pairs as [|q pairs IH]; intros acc w; simpl.
  { intros [= <- <-]. split; [done|]. intros result [= <-].
    split; [done|]. split; [by left|].
    intros p rows_ _ [Hin|Hin]; [by apply elem_of_nil in Hin|done]. }
  pose proof (load_tickerdata_file_files env datadir q ticker_interval
                (Some timerange) w) as Hfiles1.
  destruct (load_tickerdata_file env datadir q ticker_interval (Some timerange) w)
    as [w1 [[[|first pd]|]|e]] eqn:Hload; simpl in Hfiles1.
  - (* an empty list: warning, dict unchanged *)
    intros Hrest. apply IH in Hrest as [Hfiles Hres]. simpl in Hfiles.
    split; [congruence|]. intros result Hr.
    destruct (Hres result Hr) as (Hnd & Hsound & Hcomplete).
    split; [done|]. split.
    + intros p rows_ Hin. destruct (Hsound p rows_ Hin) as [?|[Hp Hl]]; [by left|].
      right. split; [by right|]. eapply loads_rows_files; [|done]. by simpl.
    + intros p rows_ Hl [Hp|Hacc].
      * apply elem_of_cons in Hp as [->|Hp].
        -- destruct Hl as [Hne Hl]. rewrite Hload in Hl. simpl in Hl. congruence.
        -- apply Hcomplete; [|by left]. eapply loads_rows_files; [|done]. by simpl.
      * apply Hcomplete; [|by right]. eapply loads_rows_files; [|done]. by simpl.
  - (* rows: boundary warnings, dict entry set *)
    destruct (last (first :: pd)) as [last_|] eqn:Hlast.
    2:{ by apply last_None in Hlast. }
    intros Hrest. apply IH in Hrest as [Hfiles Hres].
    rewrite warn_boundaries_files in Hfiles.
    split; [congruence|]. intros result Hr.
    destruct (Hres result Hr) as (Hnd & Hsound & Hcomplete).
    assert (loads_rows env datadir ticker_interval timerange w q (first :: pd))
      as Hq by (split; [done|by rewrite Hload]).
    split; [intros Hacc; by apply Hnd, dict_set_NoDup|]. split.
    + intros p rows_ Hin. destruct (Hsound p rows_ Hin) as [Hd|[Hp Hl]].
      * apply dict_set_elem_of in Hd as [?|[= -> ->]]; [by left|].
        right. split; [by left|done].
      * right. split; [by right|]. eapply loads_rows_files; [|done].
        by rewrite warn_boundaries_files.
    + intros p rows_ Hl Hin.
      assert (loads_rows env datadir ticker_interval timerange
                (warn_boundaries q timerange first last_ w1) p rows_) as Hl'.
      { eapply loads_rows_files; [|done]. by rewrite warn_boundaries_files. }
      destruct (decide (p = q)) as [->|Hne].
      * assert (rows_ = first :: pd) as ->.
        { destruct Hl as [_ Hl], Hq as [_ Hq]. congruence. }
        apply Hcomplete; [done|]. right. apply dict_set_new.
      * apply Hcomplete; [done|]. destruct Hin as [Hp|Hacc].
        -- apply elem_of_cons in Hp as [?|?]; [done|by left].
        -- right. by apply dict_set_other.
  - (* no file: warning, dict unchanged *)
    intros Hrest. apply IH in Hrest as [Hfiles Hres]. simpl in Hfiles.
    split; [congruence|]. intros result Hr.
    destruct (Hres result Hr) as (Hnd & Hsound & Hcomplete).
    split; [done|]. split.
    + intros p rows_ Hin. destruct (Hsound p rows_ Hin) as [?|[Hp Hl]]; [by left|].
      right. split; [by right|]. eapply loads_rows_files; [|done]. by simpl.
    + intros p rows_ Hl [Hp|Hacc].
      * apply elem_of_cons in Hp as [->|Hp].
        -- destruct Hl as [Hne Hl]. rewrite Hload in Hl. simpl in Hl. congruence.
        -- apply Hcomplete; [|by left]. eapply loads_rows_files; [|done]. by simpl.
      * apply Hcomplete; [|by right]. eapply loads_rows_files; [|done]. by simpl.
  - (* the load raised *)
    intros [= <- <-]. split; [done|]. by intros result.
Qed.

(** X21: without [refresh_pairs], [load_data] changes no file, whether it
    returns or raises; and the dict it returns has one entry for exactly the
    listed pairs whose file loads, under the range, to a non-empty list, with
    that list as the value. *)
Theorem load_data_result (env : Env) (datadir ticker_interval : string)
    (pairs : list string) (exchange : option Exchange) (timerange : TimeRange)
    (w w' : load_world) (r : load_result (list (string * list candle))) :
  load_data env datadir ticker_interval pairs false exchange timerange w = (w', r) →
  lw_files w' = lw_files w ∧
  ∀ result, r = Loaded result →
    NoDup result.*1 ∧
    ∀ pair_ pairdata,
      (pair_, pairdata) ∈ result ↔
      pair_ ∈ pairs ∧ pairdata ≠ [] ∧
      (load_tickerdata_file env datadir pair_ ticker_interval (Some timerange) w).2
      = Loaded (Some pairdata).
Proof.
  unfold load_data. intros [Hfiles Hres]%load_pairs_spec.
  split; [done|]. intros result Hr.
  destruct (Hres result Hr) as (Hnd & Hsound & Hcomplete).
  split; [apply Hnd; constructor|].
  intros p rows_. split.
  - intros Hin. destruct (Hsound p rows_ Hin) as [Hnil|[Hp [Hne Hl]]]; [|done].
    by apply elem_of_nil in Hnil.
  - intros (Hp & Hne & Hl). apply Hcomplete; [by split|by left].
Qed.

(** Four pairs: one with rows in range, one whose rows fall outside the
    range, one with an empty file and one without a file. *)
Lemma load_data_result_witness :
  let w := LoadWorld {[ "/data/ETH_BTC-5m.json" := Series (rows [1000; 2000; 3000]);
                        "/data/LTC_BTC-5m.json" := Series (rows [9000]);
                        "/data/XRP_BTC-5m.json" := Series [] ]} [] in
  let run := load_data sample_env "/data" "5m"
               ["ETH/BTC"; "LTC/BTC"; "XRP/BTC"; "NEO/BTC"] false None
               (mkTimeRange (Some "date") (Some "date") 2 3) w in
  run.2 = Loaded [("ETH/BTC", rows [2000; 3000])] ∧
  lw_files run.1 = lw_files w ∧
  NoDup [("ETH/BTC", rows [2000; 3000])].*1.
Proof.
  intros w run.
  destruct (load_data_result sample_env "/data" "5m"
              ["ETH/BTC"; "LTC/BTC"; "XRP/BTC"; "NEO/BTC"] None
              (mkTimeRange (Some "date") (Some "date") 2 3) w run.1 run.2 eq_refl)
    as [Hfiles Hres].
  split; [reflexivity|]. split; [done|].
  by destruct (Hres [("ETH/BTC", rows [2000; 3000])] eq_refl) as [Hnd _].
Defined.

(** X22: [load_tickerdata_file] returns [None], the sign that the data has to
    be downloaded, when neither the [.gz] file nor the plain file of the pair
    exists, and then logs nothing.  When the file it opens (the [.gz] file,
    or the plain file if there is no [.gz] file) holds an array of rows, it
    does not return [None]: it returns a list or raises, and without a range
    the list is the array. *)
Theorem load_tickerdata_file_none (env : Env)
    (datadir pair_ ticker_interval : string) (timerange : option TimeRange)
    (w : load_world) :
  let file := cache_file env datadir pair_ ticker_interval in
  let loaded := load_tickerdata_file env datadir pair_ ticker_interval timerange w in
  (lw_files w !! (file +:+ ".gz") = None → lw_files w !! file = None →
   loaded = (w, Loaded None)) ∧
  (∀ pairdata,
     lw_files w !! (file +:+ ".gz") = Some (Series pairdata) ∨
     (lw_files w !! (file +:+ ".gz") = None ∧
      lw_files w !! file = Some (Series pairdata)) →
     loaded.2 ≠ Loaded None ∧
     (timerange = None → loaded.2 = Loaded (Some pairdata))).
Proof.
  intros file loaded. subst loaded file. unfold load_tickerdata_file. split.
  - by intros -> ->.
  - intros pairdata [->|[-> ->]]; simpl;
      (split; [destruct timerange as [timerange|]; simpl; [|done];
               by destruct (trim_tickerlist pairdata timerange)
              |by intros ->]).
Qed.

Lemma load_tickerdata_file_none_witness :
  let w := LoadWorld {[ cache_file sample_env "/data" "ETH/BTC" "5m"
                        := Series (rows [1000; 2000]) ]} [] in
  load_tickerdata_file sample_env "/data" "LTC/BTC" "5m" None w
  = (w, Loaded None) ∧
  (load_tickerdata_file sample_env "/data" "ETH/BTC" "5m" None w).2
  = Loaded (Some (rows [1000; 2000])).
Proof.
  intros w. split.
  - apply (load_tickerdata_file_none sample_env "/data" "LTC/BTC" "5m" None w);
      reflexivity.
  - apply (load_tickerdata_file_none sample_env "/data" "ETH/BTC" "5m" None w);
      [right; split; reflexivity|reflexivity].
Defined.

(** ** A start at the epoch *)

(** X23: a ['date'] start of 0 counts as no start when the exchange is asked.
    With no cache file, the request goes out for the last 30 days, not for
    everything since the epoch; a non-empty answer becomes the cache file if
    [misc.format_ms_time] accepts its timestamps and the write does not
    fail. *)
Theorem download_epoch_start_uses_default (env : Env) (datadir : string)
    (exchange : Exchange) (pair_ tick_interval : string) (timerange : TimeRange)
    (w : world) (new_data : list candle) :
  starttype timerange = Some "date" →
  startts timerange = 0 →
  files w !! cache_file env datadir pair_ tick_interval = None →
  get_history exchange pair_ tick_interval ((utcnow env - 30 * 86400) * 1000)
  = Ok new_data →
  new_data ≠ [] →
  (∀ r, r ∈ new_data → ∃ s, format_ms_time env (timestamp_ms r) = Ok s) →
  dump_failure env (cache_file env datadir pair_ tick_interval) new_data = None →
  ∃ w',
    download_backtesting_testdata env datadir exchange pair_ tick_interval
      (Some timerange) w = (w', Ok ()) ∧
    files w'
    = <[cache_file env datadir pair_ tick_interval := Series new_data]> (files w).
Proof.
  intros Hdate%is_type_true Hzero Hfile Hget Hne Hfmt Hdump.
  apply (download_backtesting_testdata_run env datadir exchange pair_
           tick_interval (Some timerange) w [] (Some 0) new_data); try done.
  unfold load_cached_data_for_updating, read_cache, requested_since.
  by rewrite Hdate, Hzero, Hfile.
Qed.

Lemma download_epoch_start_uses_default_witness :
  ∃ w',
    download_backtesting_testdata sample_env "/data" steady_exchange "LTC/BTC"
      "5m" (Some (mkTimeRange (Some "date") None 0 0)) (World ∅ [])
    = (w', Ok ()) ∧
    files w'
    = <[ cache_file sample_env "/data" "LTC/BTC" "5m"
         := Series (rows [1697408000000; 1697408300000]) ]> ∅.
Proof.
  exact (download_epoch_start_uses_default sample_env "/data" steady_exchange
           "LTC/BTC" "5m" (mkTimeRange (Some "date") None 0 0) (World ∅ [])
           (rows [1697408000000; 1697408300000])
           eq_refl eq_refl eq_refl eq_refl ltac:(discriminate)
           (λ r _, ex_intro _ _ eq_refl) eq_refl).
Defined.
